(** * ZigBee component: pin configuration and pin entities

    A shallow embedding of [homeassistant/components/zigbee.py]: the
    configuration classes ([ZigBeeConfig] and its subclasses) and the three
    entity classes ([ZigBeeDigitalIn], [ZigBeeDigitalOut], [ZigBeeAnalogIn]),
    followed by the properties of the specification that concern them. *)

From Stdlib Require Import ZArith String Ascii Strings.Byte List Lia SpecFloat.
From stdpp Require Import base option strings gmap.

Import ListNotations.
Local Open Scope string_scope.
Local Open Scope Z_scope.

(** ** Python values

    The scalar values a configuration mapping read from YAML can hold, and
    that the driver can hand back for an analog reading.  [str] is modelled
    by Rocq's [string]; characters below 128 are the ASCII ones. A [float] is
    an IEEE 754 binary64 number ([spec_float] at precision 53). *)

Inductive PyVal : Type :=
| VNone
| VBool (b : bool)
| VInt (z : Z)
| VFloat (f : spec_float)
| VStr (s : string)
| VBytes (b : list byte).

Definition prec64 : Z := 53.
Definition emax64 : Z := 1024.

(** Truth value of an object, as tested by [not x] and [if x]. *)
Definition py_truthy (v : PyVal) : bool :=
  match v with
  | VNone => false
  | VBool b => b
  | VInt z => negb (z =? 0)
  | VFloat (S754_zero _) => false
  | VFloat _ => true
  | VStr s => negb (String.eqb s "")
  | VBytes b => match b with [] => false | _ => true end
  end.

(** [v == s] for a [str] literal [s]: only a [str] with the same characters
    is equal to it ([bytes], numbers and [None] never are). *)
Definition py_eq_str (v : PyVal) (s : string) : bool :=
  match v with
  | VStr t => String.eqb t s
  | _ => false
  end.

(** ** [str.lower]

    Upper-case ASCII letters are mapped to their lower-case letters. The
    characters from 128 on are left as they are: their Unicode lower-case
    forms are not ASCII letters, so a comparison of the result with an ASCII
    word is not affected. *)

Definition ascii_lower (c : ascii) : ascii :=
  let n := N_of_ascii c in
  if ((65 <=? n) && (n <=? 90))%N then ascii_of_N (n + 32) else c.

Fixpoint str_lower (s : string) : string :=
  match s with
  | EmptyString => EmptyString
  | String c r => String (ascii_lower c) (str_lower r)
  end.

Definition bytes_lower (b : list byte) : list byte :=
  map (fun x => byte_of_ascii (ascii_lower (ascii_of_byte x))) b.

(** ** [binascii.unhexlify] *)

Definition hex_digit (c : ascii) : option N :=
  let n := N_of_ascii c in
  if ((48 <=? n) && (n <=? 57))%N then Some (n - 48)%N
  else if ((97 <=? n) && (n <=? 102))%N then Some (n - 87)%N
  else if ((65 <=? n) && (n <=? 70))%N then Some (n - 55)%N
  else None.

Definition byte_of_nibbles (hi lo : N) : byte :=
  byte_of_ascii (ascii_of_N (16 * hi + lo)).

(** The conversion loop: two digits give one byte. [None] when a character
    is not a hexadecimal digit (the length is even when this is called). *)
Fixpoint unhex_pairs (s : string) : option (list byte) :=
  match s with
  | EmptyString => Some []
  | String _ EmptyString => None
  | String a (String b r) =>
      match hex_digit a, hex_digit b with
      | Some hi, Some lo =>
          match unhex_pairs r with
          | Some bs => Some (byte_of_nibbles hi lo :: bs)
          | None => None
          end
      | _, _ => None
      end
  end.

Definition is_ascii_str (s : string) : bool :=
  forallb (fun c => (N_of_ascii c <? 128)%N) (list_ascii_of_string s).

Definition str_of_bytes (b : list byte) : string :=
  string_of_list_ascii (map ascii_of_byte b).

(** ** [float] of a text

    The decimal grammar of [float(s)]: blanks around the number, a sign,
    digits with an optional fraction, an optional exponent, or one of the
    words [inf], [infinity] and [nan]. The decimal value is rounded to the
    nearest binary64 number, ties to even. Underscores between digits, which
    interpreters accept from 3.6 on, are not read. *)

Definition is_space (c : ascii) : bool :=
  let n := N_of_ascii c in
  ((n =? 32) || ((9 <=? n) && (n <=? 13)))%N.

Definition is_digit (c : ascii) : bool :=
  let n := N_of_ascii c in ((48 <=? n) && (n <=? 57))%N.

Definition digit_val (c : ascii) : Z := Z.of_N (N_of_ascii c) - 48.

Fixpoint lstrip (s : string) : string :=
  match s with
  | String c r => if is_space c then lstrip r else s
  | EmptyString => EmptyString
  end.

Fixpoint rstrip (s : string) : string :=
  match s with
  | EmptyString => EmptyString
  | String c r =>
      match rstrip r with
      | EmptyString => if is_space c then EmptyString else String c EmptyString
      | r' => String c r'
      end
  end.

(** Reads a run of digits: the number read so far, how many digits were
    read, and the text that follows. *)
Fixpoint take_digits (s : string) (acc cnt : Z) : Z * Z * string :=
  match s with
  | String c r =>
      if is_digit c then take_digits r (10 * acc + digit_val c) (cnt + 1)
      else (acc, cnt, s)
  | EmptyString => (acc, cnt, s)
  end.

Definition take_sign (s : string) : bool * string :=
  match s with
  | String "-" r => (true, r)
  | String "+" r => (false, r)
  | _ => (false, s)
  end.

(** The binary64 number nearest to [(-1)^neg * m * 10^e10]. *)
Definition dec2float (neg : bool) (m : Z) (e10 : Z) : spec_float :=
  match m with
  | Zpos p =>
      if 0 <=? e10
      then binary_normalize prec64 emax64
             (if neg then - (m * 10 ^ e10) else m * 10 ^ e10) 0 neg
      else SFdiv prec64 emax64
             (S754_finite neg p 0)
             (S754_finite false (Z.to_pos (10 ^ (- e10))) 0)
  | _ => S754_zero neg
  end.

(** The optional exponent part; [None] when ill-formed. *)
Definition take_exponent (s : string) : option (Z * string) :=
  match s with
  | String c r =>
      if (Ascii.eqb c "e" || Ascii.eqb c "E")%bool then
        let '(eneg, r1) := take_sign r in
        let '(e, n, r2) := take_digits r1 0 0 in
        if n =? 0 then None else Some (if eneg then - e else e, r2)
      else Some (0, s)
  | EmptyString => Some (0, s)
  end.

Definition parse_float (s : string) : option spec_float :=
  let '(neg, body) := take_sign (rstrip (lstrip s)) in
  let word := str_lower body in
  if (String.eqb word "inf" || String.eqb word "infinity")%bool
  then Some (S754_infinity neg)
  else if String.eqb word "nan" then Some S754_nan
  else
    let '(ip, n1, r1) := take_digits body 0 0 in
    let '(m, n2, r2) :=
      match r1 with
      | String "." r => take_digits r ip 0
      | _ => (ip, 0, r1)
      end in
    if n1 + n2 =? 0 then None
    else
      match take_exponent r2 with
      | Some (e, EmptyString) => Some (dec2float neg m (e - n2))
      | _ => None
      end.

(** The module constant [DEFAULT_ADC_MAX_VOLTS = 1.2]. *)
Definition DEFAULT_ADC_MAX_VOLTS : spec_float := dec2float false 12 (-1).

(** ** Python dictionaries with insertion order

    A [dict] literal or comprehension keeps its keys in the order in which
    they were first inserted; storing under a key that is already there
    replaces the value. (An interpreter older than 3.7 may walk the items in
    another order; the result of a comprehension then differs only if two
    items store under the same key.) *)

Definition dict (K V : Type) : Type := list (K * V).

Fixpoint dict_get {K V} `{EqDecision K} (d : dict K V) (k : K) : option V :=
  match d with
  | [] => None
  | (k', v) :: r => if decide (k = k') then Some v else dict_get r k
  end.

Fixpoint dict_set {K V} `{EqDecision K} (d : dict K V) (k : K) (v : V)
  : dict K V :=
  match d with
  | [] => [(k, v)]
  | (k', v') :: r =>
      if decide (k = k') then (k', v) :: r else (k', v') :: dict_set r k v
  end.

Definition dict_items {K V} (d : dict K V) : list (K * V) := d.

(** [{v: k for k, v in d.items()}] *)
Definition dict_swap {K V} `{EqDecision V} (d : dict K V) : dict V K :=
  fold_left (fun acc kv => dict_set acc (snd kv) (fst kv)) (dict_items d) [].

(** ** The driver library's constants

    [setup] copies [GPIO_DIGITAL_OUTPUT_LOW], [GPIO_DIGITAL_OUTPUT_HIGH] and
    [ADC_PERCENTAGE] from [xbee_helper.const] into the module's globals. The
    raw levels are the driver's own objects; they are used as dictionary
    keys, so they come with a decidable equality. *)

Class XBee : Type := {
  Raw : Type;
  Raw_eq_dec :: EqDecision Raw;
  GPIO_DIGITAL_OUTPUT_LOW : Raw;
  GPIO_DIGITAL_OUTPUT_HIGH : Raw;
  AdcMode : Type;
  ADC_PERCENTAGE : AdcMode
}.

(** ** Exceptions and outcomes *)

Section Runtime.
Context {X : XBee}.

Inductive PyKey : Type :=
| KStr (s : string)
| KBool (b : bool)
| KRaw (r : Raw).

Inductive exn : Type :=
| KeyError (k : PyKey)
| AttributeError (attr : string)
| TypeError
| ValueError
| OverflowError
| binascii_Error (msg : string)
| DeviceError (msg : string).

Inductive Outcome (A : Type) : Type :=
| Ok (a : A)
| Raise (e : exn).

Definition is_Ok {A} (o : Outcome A) : bool :=
  match o with Ok _ _ => true | Raise _ _ => false end.

(** [d[k]] *)
Definition getitem {K V} `{EqDecision K} (key : K -> PyKey)
    (d : dict K V) (k : K) : Outcome V :=
  match dict_get d k with
  | Some v => Ok _ v
  | None => Raise _ (KeyError (key k))
  end.

(** [config[k]] for the configuration mapping. *)
Definition config_getitem (config : gmap string PyVal) (k : string)
  : Outcome PyVal :=
  match config !! k with
  | Some v => Ok _ v
  | None => Raise _ (KeyError (KStr k))
  end.

(** [config.get(k, dflt)] *)
Definition config_get (config : gmap string PyVal) (k : string)
    (dflt : PyVal) : PyVal :=
  match config !! k with
  | Some v => v
  | None => dflt
  end.

(** [x.lower()]: a method of [str] and of [bytes] only. *)
Definition py_lower (v : PyVal) : Outcome PyVal :=
  match v with
  | VStr s => Ok _ (VStr (str_lower s))
  | VBytes b => Ok _ (VBytes (bytes_lower b))
  | _ => Raise _ (AttributeError "lower")
  end.

(** The hexadecimal digits of a text, after the argument was accepted. *)
Definition unhexlify_text (s : string) : Outcome (list byte) :=
  if Nat.even (String.length s) then
    match unhex_pairs s with
    | Some bs => Ok _ bs
    | None => Raise _ (binascii_Error "Non-hexadecimal digit found")
    end
  else Raise _ (binascii_Error "Odd-length string").

(** [binascii.unhexlify(x)]: [x] is [bytes] or an ASCII-only [str]. *)
Definition unhexlify (v : PyVal) : Outcome (list byte) :=
  match v with
  | VStr s => if is_ascii_str s then unhexlify_text s else Raise _ ValueError
  | VBytes b => unhexlify_text (str_of_bytes b)
  | _ => Raise _ TypeError
  end.

(** [float(x)] *)
Definition py_float (v : PyVal) : Outcome spec_float :=
  match v with
  | VFloat f => Ok _ f
  | VBool b => Ok _ (if b then dec2float false 1 0 else S754_zero false)
  | VInt z =>
      match binary_normalize prec64 emax64 z 0 false with
      | S754_infinity _ => Raise _ OverflowError
      | f => Ok _ f
      end
  | VStr s =>
      match parse_float s with
      | Some f => Ok _ f
      | None => Raise _ ValueError
      end
  | VBytes b =>
      match parse_float (str_of_bytes b) with
      | Some f => Ok _ f
      | None => Raise _ ValueError
      end
  | VNone => Raise _ TypeError
  end.
End Runtime.

Arguments Ok {X A} a.
Arguments Raise {X A} e.

(** ** Configuration classes *)

Module ZigBeeConfig.
Section Class.
Context {X : XBee}.

Record t : Type := {
  _config : gmap string PyVal;
  _should_poll : PyVal
}.

Definition __init__ (config : gmap string PyVal) : t :=
  {| _config := config;
     _should_poll := config_get config "poll" (VBool true) |}.

Definition name (self : t) : Outcome PyVal :=
  config_getitem (_config self) "name".

Definition address (self : t) : Outcome (option (list byte)) :=
  match config_get (_config self) "address" VNone with
  | VNone => Ok None
  | a =>
      match unhexlify a with
      | Ok bs => Ok (Some bs)
      | Raise e => Raise e
      end
  end.

Definition should_poll (self : t) : PyVal := _should_poll self.
End Class.
End ZigBeeConfig.

Module ZigBeePinConfig.
Section Class.
Context {X : XBee}.

Definition pin (self : ZigBeeConfig.t) : Outcome PyVal :=
  config_getitem (ZigBeeConfig._config self) "pin".
End Class.
End ZigBeePinConfig.

Module ZigBeeDigitalPinConfig.
Section Class.
Context {X : XBee}.

Record t : Type := {
  super : ZigBeeConfig.t;
  _bool2state : dict bool Raw;
  _state2bool : dict Raw bool
}.

Definition boolean_maps (config : gmap string PyVal)
  : Outcome (dict bool Raw * dict Raw bool) :=
  match py_lower (config_get config "on_state" (VStr "")) with
  | Raise e => Raise e
  | Ok lowered =>
      let bool2state : dict bool Raw :=
        if py_eq_str lowered "low"
        then [(true, GPIO_DIGITAL_OUTPUT_LOW);
              (false, GPIO_DIGITAL_OUTPUT_HIGH)]
        else [(true, GPIO_DIGITAL_OUTPUT_HIGH);
              (false, GPIO_DIGITAL_OUTPUT_LOW)] in
      let state2bool := dict_swap bool2state in
      Ok (bool2state, state2bool)
  end.

Definition __init__ (config : gmap string PyVal) : Outcome t :=
  let base := ZigBeeConfig.__init__ config in
  match boolean_maps (ZigBeeConfig._config base) with
  | Raise e => Raise e
  | Ok (b2s, s2b) =>
      Ok {| super := base; _bool2state := b2s; _state2bool := s2b |}
  end.

Definition bool2state (self : t) : dict bool Raw := _bool2state self.
Definition state2bool (self : t) : dict Raw bool := _state2bool self.

Definition name (self : t) := ZigBeeConfig.name (super self).
Definition address (self : t) := ZigBeeConfig.address (super self).
Definition should_poll (self : t) := ZigBeeConfig.should_poll (super self).
Definition pin (self : t) := ZigBeePinConfig.pin (super self).
End Class.
End ZigBeeDigitalPinConfig.

(** [ZigBeeDigitalInConfig = ZigBeeDigitalPinConfig] *)
Module ZigBeeDigitalInConfig := ZigBeeDigitalPinConfig.

Module ZigBeeDigitalOutConfig.
Section Class.
Context {X : XBee}.

Definition __init__ (config : gmap string PyVal)
  : Outcome ZigBeeDigitalPinConfig.t :=
  match ZigBeeDigitalPinConfig.__init__ config with
  | Raise e => Raise e
  | Ok self =>
      let base := ZigBeeDigitalPinConfig.super self in
      Ok {| ZigBeeDigitalPinConfig.super :=
              {| ZigBeeConfig._config := ZigBeeConfig._config base;
                 ZigBeeConfig._should_poll :=
                   config_get config "poll" (VBool false) |};
            ZigBeeDigitalPinConfig._bool2state :=
              ZigBeeDigitalPinConfig._bool2state self;
            ZigBeeDigitalPinConfig._state2bool :=
              ZigBeeDigitalPinConfig._state2bool self |}
  end.
End Class.
End ZigBeeDigitalOutConfig.

Module ZigBeeAnalogInConfig.
Section Class.
Context {X : XBee}.

(** The class defines no constructor of its own. *)
Definition __init__ (config : gmap string PyVal) : ZigBeeConfig.t :=
  ZigBeeConfig.__init__ config.

Definition max_voltage (self : ZigBeeConfig.t) : Outcome spec_float :=
  py_float (config_get (ZigBeeConfig._config self) "max_volts"
              (VFloat DEFAULT_ADC_MAX_VOLTS)).
End Class.
End ZigBeeAnalogInConfig.

(** ** The device and the host platform

    [DEVICE] is the [xbee_helper.ZigBee] object that [setup] creates. Its
    methods talk to the hardware over the serial link: they depend on, and
    may change, a hidden hardware state, and they may raise. *)

Class ZigBee {X : XBee} : Type := {
  HW : Type;
  get_gpio_pin :
    PyVal -> option (list byte) -> HW -> Outcome Raw * HW;
  set_gpio_pin :
    PyVal -> Raw -> option (list byte) -> HW -> Outcome unit * HW;
  read_analog_pin :
    PyVal -> spec_float -> option (list byte) -> AdcMode ->
    HW -> Outcome PyVal * HW
}.

Section Platform.
Context {X : XBee} {DEVICE : ZigBee}.

(** What the component does to the outside, in the order it does it: the
    calls it makes on [DEVICE], the jobs it hands to the platform's worker
    pool, and the states it reports to the platform. *)
Inductive Event : Type :=
| EvGetGpioPin (pin : PyVal) (address : option (list byte))
| EvSetGpioPin (pin : PyVal) (setting : Raw) (address : option (list byte))
| EvReadAnalogPin (pin : PyVal) (max_volts : spec_float)
    (address : option (list byte)) (mode : AdcMode)
| EvAddJobUpdateHaState (force_refresh : bool)
| EvStateReported (state : PyVal).

Record World : Type := {
  hardware : HW;
  log : list Event
}.

Definition record (ev : Event) (w : World) : World :=
  {| hardware := hardware w; log := log w ++ [ev] |}.

(** A method runs on its object and the world. *)
Record Env (Self : Type) : Type := {
  self : Self;
  world : World
}.
Arguments self {Self} _.
Arguments world {Self} _.

Definition M (S A : Type) : Type := S -> Outcome A * S.

Definition ret {S A} (a : A) : M S A := fun s => (Ok a, s).

Definition bind {S A B} (m : M S A) (k : A -> M S B) : M S B :=
  fun s =>
    match m s with
    | (Ok a, s') => k a s'
    | (Raise e, s') => (Raise e, s')
    end.

Definition lift {S A} (o : Outcome A) : M S A := fun s => (o, s).

Definition gets {S A} (f : S -> A) : M S A := fun s => (Ok (f s), s).

Definition modify {S} (f : S -> S) : M S unit := fun s => (Ok tt, f s).

Definition on_world {Self} (f : World -> World) (s : Env Self) : Env Self :=
  {| self := self s; world := f (world s) |}.

Definition on_self {Self} (f : Self -> Self) (s : Env Self) : Env Self :=
  {| self := f (self s); world := world s |}.

(** A call of a method of [DEVICE]. *)
Definition call_device {Self A} (ev : Event) (op : HW -> Outcome A * HW)
  : M (Env Self) A :=
  fun s =>
    let w := record ev (world s) in
    let '(r, hw') := op (hardware w) in
    (r, {| self := self s;
           world := {| hardware := hw'; log := log w |} |}).

Definition DEVICE_get_gpio_pin {Self} pin address : M (Env Self) Raw :=
  call_device (EvGetGpioPin pin address) (get_gpio_pin pin address).

Definition DEVICE_set_gpio_pin {Self} pin setting address
  : M (Env Self) unit :=
  call_device (EvSetGpioPin pin setting address)
    (set_gpio_pin pin setting address).

Definition DEVICE_read_analog_pin {Self} pin max_volts address mode
  : M (Env Self) PyVal :=
  call_device (EvReadAnalogPin pin max_volts address mode)
    (read_analog_pin pin max_volts address mode).

(** [hass.pool.add_job(JobPriority.EVENT_STATE, (self.update_ha_state, True))]:
    the job is queued, not run. *)
Definition add_job_update_ha_state (force_refresh : bool) (w : World)
  : World :=
  record (EvAddJobUpdateHaState force_refresh) w.

(** Modelled from the spec: [Entity.update_ha_state] of
    [homeassistant.helpers.entity] is not part of the sources. The host
    platform is a sink that accepts state-change notifications: the call
    reports the entity's current [state] to it. *)
Definition update_ha_state {Self} (state : Self -> PyVal)
  : M (Env Self) unit :=
  fun s => (Ok tt, on_world (record (EvStateReported (state (self s)))) s).
End Platform.

Arguments self {X DEVICE Self} _.
Arguments world {X DEVICE Self} _.

Declare Scope py_scope.
Delimit Scope py_scope with py.
Notation "x <- m ;; k" := (bind m (fun x => k))
  (at level 100, m at next level, right associativity) : py_scope.
Notation "m ;; k" := (bind m (fun _ => k))
  (at level 100, right associativity) : py_scope.

(** Modelled from the spec: [STATE_ON] and [STATE_OFF] of
    [homeassistant.const] are not part of the sources; the observable state
    of a digital pin is ["on"] or ["off"]. *)
Definition STATE_ON : PyVal := VStr "on".
Definition STATE_OFF : PyVal := VStr "off".

(** ** Entity classes *)

Module ZigBeeDigitalIn.
Section Class.
Context {X : XBee} {DEVICE : ZigBee}.
Local Open Scope py_scope.

Record t : Type := {
  _config : ZigBeeDigitalPinConfig.t;
  _state : bool
}.

Definition __init__ (config : ZigBeeDigitalPinConfig.t) (w : World)
  : t * World :=
  ({| _config := config; _state := false |},
   add_job_update_ha_state true w).

Definition name (self : t) := ZigBeeDigitalPinConfig.name (_config self).

Definition should_poll (self : t) : PyVal :=
  ZigBeeDigitalPinConfig.should_poll (_config self).

Definition is_on (self : t) : bool := _state self.

Definition state (self : t) : PyVal :=
  if is_on self then STATE_ON else STATE_OFF.

Definition update : M (Env t) unit :=
  config <- gets (fun s => _config (self s)) ;;
  pin <- lift (ZigBeeDigitalPinConfig.pin config) ;;
  address <- lift (ZigBeeDigitalPinConfig.address config) ;;
  pin_state <- DEVICE_get_gpio_pin pin address ;;
  value <- lift (getitem KRaw (ZigBeeDigitalPinConfig.state2bool config)
                   pin_state) ;;
  modify (on_self (fun o => {| _config := _config o; _state := value |})).
End Class.
End ZigBeeDigitalIn.

Module ZigBeeDigitalOut.
Section Class.
Context {X : XBee} {DEVICE : ZigBee}.
Local Open Scope py_scope.
Import ZigBeeDigitalIn.

Definition _set_state (state : bool) : M (Env t) unit :=
  config <- gets (fun s => _config (self s)) ;;
  pin <- lift (ZigBeeDigitalPinConfig.pin config) ;;
  setting <- lift (getitem KBool (ZigBeeDigitalPinConfig.bool2state config)
                     state) ;;
  address <- lift (ZigBeeDigitalPinConfig.address config) ;;
  DEVICE_set_gpio_pin pin setting address ;;
  modify (on_self (fun o => {| _config := _config o; _state := state |})) ;;
  poll <- gets (fun s => should_poll (self s)) ;;
  if negb (py_truthy poll) then update_ha_state ZigBeeDigitalIn.state
  else ret tt.

Definition turn_on : M (Env t) unit := _set_state true.
Definition turn_off : M (Env t) unit := _set_state false.
End Class.
End ZigBeeDigitalOut.

Module ZigBeeAnalogIn.
Section Class.
Context {X : XBee} {DEVICE : ZigBee}.
Local Open Scope py_scope.

Record t : Type := {
  _config : ZigBeeConfig.t;
  _value : PyVal
}.

Definition __init__ (config : ZigBeeConfig.t) (w : World) : t * World :=
  ({| _config := config; _value := VNone |},
   add_job_update_ha_state true w).

Definition name (self : t) := ZigBeeConfig.name (_config self).

Definition should_poll (self : t) : PyVal :=
  ZigBeeConfig.should_poll (_config self).

Definition state (self : t) : PyVal := _value self.

Definition unit_of_measurement (self : t) : PyVal := VStr "%".

Definition update : M (Env t) unit :=
  config <- gets (fun s => _config (self s)) ;;
  pin <- lift (ZigBeePinConfig.pin config) ;;
  max_volts <- lift (ZigBeeAnalogInConfig.max_voltage config) ;;
  address <- lift (ZigBeeConfig.address config) ;;
  value <- DEVICE_read_analog_pin pin max_volts address ADC_PERCENTAGE ;;
  modify (on_self (fun o => {| _config := _config o; _value := value |})).
End Class.
End ZigBeeAnalogIn.

(** ** The module's globals, [setup] and [close_serial_port] *)

(** [int] of a text: blanks around the number, a sign, decimal digits. *)
Definition parse_int (s : string) : option Z :=
  let '(neg, body) := take_sign (rstrip (lstrip s)) in
  let '(n, cnt, rest) := take_digits body 0 0 in
  if cnt =? 0 then None
  else
    match rest with
    | EmptyString => Some (if neg then - n else n)
    | _ => None
    end.

(** The integral part of a finite number, towards zero. *)
Definition float_trunc (f : spec_float) : Z :=
  match f with
  | S754_finite s m e =>
      let a := if 0 <=? e then Zpos m * 2 ^ e else Zpos m / 2 ^ (- e) in
      if s then - a else a
  | _ => 0
  end.

Definition DOMAIN : string := "zigbee".
Definition CONF_DEVICE : string := "device".
Definition CONF_BAUD : string := "baud".
Definition DEFAULT_DEVICE : PyVal := VStr "/dev/ttyUSB0".
Definition DEFAULT_BAUD : PyVal := VInt 9600.

(** The names under which [setup] reads the driver's constants. *)
Abbreviation xb_const_GPIO_DIGITAL_OUTPUT_LOW := GPIO_DIGITAL_OUTPUT_LOW.
Abbreviation xb_const_GPIO_DIGITAL_OUTPUT_HIGH := GPIO_DIGITAL_OUTPUT_HIGH.
Abbreviation xb_const_ADC_PERCENTAGE := ADC_PERCENTAGE.

Section Conversions.
Context {X : XBee}.

(** [int(x)] *)
Definition py_int (v : PyVal) : Outcome Z :=
  match v with
  | VInt z => Ok z
  | VBool b => Ok (if b then 1 else 0)
  | VFloat (S754_infinity _) => Raise OverflowError
  | VFloat S754_nan => Raise ValueError
  | VFloat f => Ok (float_trunc f)
  | VStr s =>
      match parse_int s with
      | Some z => Ok z
      | None => Raise ValueError
      end
  | VBytes b =>
      match parse_int (str_of_bytes b) with
      | Some z => Ok z
      | None => Raise ValueError
      end
  | VNone => Raise TypeError
  end.

(** What [Serial(usb_device, baud)] can do: return the open port, raise
    [SerialException], or raise something else. *)
Inductive OpenResult (Port : Type) : Type :=
| Opened (ser : Port)
| SerialException (msg : string)
| OtherException (e : exn).
End Conversions.

Arguments Opened {X Port} ser.
Arguments SerialException {X Port} msg.
Arguments OtherException {X Port} e.

(** The [serial] library, as the module meets it when [setup] runs. *)
Class SerialLib {X : XBee} : Type := {
  Port : Type;
  Serial : PyVal -> Z -> OpenResult Port
}.

Module Globals.
Section Class.
Context {X : XBee} {SL : SerialLib}.

(** The four globals that [setup] assigns; all are [None] when the module
    is loaded. [DEVICE] is the [ZigBee] object made of the open port. *)
Record t : Type := {
  GPIO_DIGITAL_OUTPUT_LOW : option Raw;
  GPIO_DIGITAL_OUTPUT_HIGH : option Raw;
  ADC_PERCENTAGE : option AdcMode;
  DEVICE : option Port
}.

Definition initial : t :=
  {| GPIO_DIGITAL_OUTPUT_LOW := None;
     GPIO_DIGITAL_OUTPUT_HIGH := None;
     ADC_PERCENTAGE := None;
     DEVICE := None |}.
End Class.
End Globals.

Section Setup.
Context {X : XBee} {SL : SerialLib}.
Local Open Scope py_scope.

(** What [setup] and [close_serial_port] do to the outside. *)
Inductive HostEvent : Type :=
| EvSerial (usb_device : PyVal) (baud : Z)
| EvLoggerException (msg : string)
| EvListenOnceStop
| EvSerialClose (ser : Port).

Record ModuleState : Type := {
  globals : Globals.t;
  host : list HostEvent
}.

Definition emit (ev : HostEvent) : M ModuleState unit :=
  modify (fun s => {| globals := globals s; host := host s ++ [ev] |}).

Definition set_globals (f : Globals.t -> Globals.t) : M ModuleState unit :=
  modify (fun s => {| globals := f (globals s); host := host s |}).

(** A section of the configuration file: a mapping, or a scalar (an empty
    section is [None]). *)
Definition ConfigSection : Type := PyVal + gmap string PyVal.

(** [config[DOMAIN].get(k, dflt)] *)
Definition domain_get (config : gmap string ConfigSection) (k : string)
    (dflt : PyVal) : Outcome PyVal :=
  match config !! DOMAIN with
  | None => Raise (KeyError (KStr DOMAIN))
  | Some (inl _) => Raise (AttributeError "get")
  | Some (inr section) => Ok (config_get section k dflt)
  end.

Definition call_Serial (usb_device : PyVal) (baud : Z)
  : M ModuleState (OpenResult Port) :=
  emit (EvSerial usb_device baud) ;;
  ret (Serial usb_device baud).

Definition setup (config : gmap string ConfigSection) : M ModuleState bool :=
  set_globals (fun g =>
    {| Globals.GPIO_DIGITAL_OUTPUT_LOW := Some xb_const_GPIO_DIGITAL_OUTPUT_LOW;
       Globals.GPIO_DIGITAL_OUTPUT_HIGH := Globals.GPIO_DIGITAL_OUTPUT_HIGH g;
       Globals.ADC_PERCENTAGE := Globals.ADC_PERCENTAGE g;
       Globals.DEVICE := Globals.DEVICE g |}) ;;
  set_globals (fun g =>
    {| Globals.GPIO_DIGITAL_OUTPUT_LOW := Globals.GPIO_DIGITAL_OUTPUT_LOW g;
       Globals.GPIO_DIGITAL_OUTPUT_HIGH :=
         Some xb_const_GPIO_DIGITAL_OUTPUT_HIGH;
       Globals.ADC_PERCENTAGE := Globals.ADC_PERCENTAGE g;
       Globals.DEVICE := Globals.DEVICE g |}) ;;
  set_globals (fun g =>
    {| Globals.GPIO_DIGITAL_OUTPUT_LOW := Globals.GPIO_DIGITAL_OUTPUT_LOW g;
       Globals.GPIO_DIGITAL_OUTPUT_HIGH := Globals.GPIO_DIGITAL_OUTPUT_HIGH g;
       Globals.ADC_PERCENTAGE := Some xb_const_ADC_PERCENTAGE;
       Globals.DEVICE := Globals.DEVICE g |}) ;;
  usb_device <- lift (domain_get config CONF_DEVICE DEFAULT_DEVICE) ;;
  baud_value <- lift (domain_get config CONF_BAUD DEFAULT_BAUD) ;;
  baud <- lift (py_int baud_value) ;;
  opened <- call_Serial usb_device baud ;;
  match opened with
  | SerialException exc =>
      emit (EvLoggerException "Unable to open serial port for ZigBee: %s") ;;
      ret false
  | OtherException e => lift (Raise e)
  | Opened ser =>
      set_globals (fun g =>
        {| Globals.GPIO_DIGITAL_OUTPUT_LOW := Globals.GPIO_DIGITAL_OUTPUT_LOW g;
           Globals.GPIO_DIGITAL_OUTPUT_HIGH :=
             Globals.GPIO_DIGITAL_OUTPUT_HIGH g;
           Globals.ADC_PERCENTAGE := Globals.ADC_PERCENTAGE g;
           Globals.DEVICE := Some ser |}) ;;
      emit EvListenOnceStop ;;
      ret true
  end.

(** [DEVICE.zb.serial.close()] *)
Definition close_serial_port : M ModuleState unit :=
  device <- gets (fun s => Globals.DEVICE (globals s)) ;;
  match device with
  | None => lift (Raise (AttributeError "zb"))
  | Some ser => emit (EvSerialClose ser)
  end.
End Setup.

(** ** Sample constants and a sample device

    [xbee_helper.const] gives the GPIO settings as one-byte strings:
    [b"\x04"] for output low and [b"\x05"] for output high. The simulated
    device answers as long as the link is up. *)

Inductive adc_mode : Type := ADC_RAW | ADC_PERCENT | ADC_VOLTS | ADC_MILLIVOLTS.

#[global] Instance byte_eq_decision : EqDecision byte := Byte.byte_eq_dec.

Definition xbee_const : XBee := {|
  Raw := list byte;
  GPIO_DIGITAL_OUTPUT_LOW := [x04];
  GPIO_DIGITAL_OUTPUT_HIGH := [x05];
  AdcMode := adc_mode;
  ADC_PERCENTAGE := ADC_PERCENT
|}.

(** A third setting of [xbee_helper.const]: [GPIO_DISABLED = b"\x00"]. *)
Definition GPIO_DISABLED : @Raw xbee_const := [x00].

Record SimHW : Type := {
  link_up : bool;
  level : list byte;
  adc : PyVal
}.

Definition sim_device : @ZigBee xbee_const := {|
  HW := SimHW;
  get_gpio_pin _ _ hw :=
    if link_up hw then (Ok (X := xbee_const) (level hw), hw)
    else (Raise (DeviceError "no response"), hw);
  set_gpio_pin _ setting _ hw :=
    if link_up hw
    then (Ok tt, {| link_up := true; level := setting; adc := adc hw |})
    else (Raise (DeviceError "no response"), hw);
  read_analog_pin _ _ _ _ hw :=
    if link_up hw then (Ok (adc hw), hw)
    else (Raise (DeviceError "no response"), hw)
|}.

(** The mappings of two configuration entries: a lamp switched by a pin that
    is on when low, and an analog sensor. *)
Definition lamp_mapping : gmap string PyVal :=
  <["name" := VStr "Lamp"]>
    (<["pin" := VStr "D0"]> {["on_state" := VStr "low"]}).


(** The configuration objects that the constructors make of them. *)
Definition lamp_config (poll : bool) : @ZigBeeDigitalPinConfig.t xbee_const :=
  {| ZigBeeDigitalPinConfig.super :=
       {| ZigBeeConfig._config := lamp_mapping;
          ZigBeeConfig._should_poll := VBool poll |};
     ZigBeeDigitalPinConfig._bool2state :=
       [(true, GPIO_DIGITAL_OUTPUT_LOW); (false, GPIO_DIGITAL_OUTPUT_HIGH)];
     ZigBeeDigitalPinConfig._state2bool :=
       [(GPIO_DIGITAL_OUTPUT_LOW, true); (GPIO_DIGITAL_OUTPUT_HIGH, false)] |}.


Definition sim_hw (up : bool) (lvl : list byte) (reading : PyVal)
  : @HW xbee_const sim_device :=
  Build_SimHW up lvl reading.

(** The simulated device in a given state, before anything was logged. *)
Definition sim_world (up : bool) (lvl : list byte) (reading : PyVal)
  : @World xbee_const sim_device :=
  {| hardware := sim_hw up lvl reading; log := [] |}.

(** A serial library for which only [/dev/ttyUSB0] can be opened; the open
    port is known by its path and speed. *)
Definition sim_open (usb_device : PyVal) (baud : Z)
  : @OpenResult xbee_const (string * Z) :=
  match usb_device with
  | VStr path =>
      if String.eqb path "/dev/ttyUSB0" then Opened (path, baud)
      else SerialException "could not open port"
  | _ => OtherException TypeError
  end.

Definition sim_serial : @SerialLib xbee_const := {|
  Port := string * Z;
  Serial := sim_open
|}.

(** A digital configuration whose mapping is empty: no pin, no name. *)
Definition bare_config : @ZigBeeDigitalPinConfig.t xbee_const :=
  {| ZigBeeDigitalPinConfig.super :=
       {| ZigBeeConfig._config := ∅;
          ZigBeeConfig._should_poll := VBool true |};
     ZigBeeDigitalPinConfig._bool2state :=
       [(true, GPIO_DIGITAL_OUTPUT_HIGH); (false, GPIO_DIGITAL_OUTPUT_LOW)];
     ZigBeeDigitalPinConfig._state2bool :=
       [(GPIO_DIGITAL_OUTPUT_HIGH, true); (GPIO_DIGITAL_OUTPUT_LOW, false)] |}.

Definition sim_port (path : string) (baud : Z) : @Port xbee_const sim_serial :=
  (path, baud).

(** The module as it is loaded, before [setup]. *)
Definition fresh_module : @ModuleState xbee_const sim_serial :=
  {| globals := Globals.initial; host := [] |}.

(** Three configuration files: a speed given as a text, a device that is
    not there, and a speed that is no number. *)
Definition fast_file : gmap string ConfigSection :=
  {[DOMAIN := inr {["baud" := VStr "115200"]}]}.

Definition absent_device_file : gmap string ConfigSection :=
  {[DOMAIN := inr {["device" := VStr "/dev/ttyS9"]}]}.

Definition bad_baud_file : gmap string ConfigSection :=
  {[DOMAIN := inr {["baud" := VStr "fast"]}]}.

(** A device given as a number, which the serial library refuses with an
    error of its own. *)
Definition numeric_device_file : gmap string ConfigSection :=
  {[DOMAIN := inr {["device" := VInt 5]}]}.

(** An analog sensor whose [max_volts] is no number. *)
Definition broken_sensor_config : ZigBeeConfig.t :=
  {| ZigBeeConfig._config :=
       <["pin" := VStr "A1"]> {["max_volts" := VStr "high"]};
     ZigBeeConfig._should_poll := VBool true |}.

(** ** Vocabulary of the specification *)

(** The spellings of the word [low], whatever the case of its letters. *)
Definition low_spellings : list string :=
  ["low"; "loW"; "lOw"; "lOW"; "Low"; "LoW"; "LOw"; "LOW"].

(** The configuration maps [True] to [on] and [False] to [off]. *)
Definition maps_bools_to {X : XBee} (c : ZigBeeDigitalPinConfig.t)
    (on off : Raw) : Prop :=
  getitem KBool (ZigBeeDigitalPinConfig.bool2state c) true = Ok on /\
  getitem KBool (ZigBeeDigitalPinConfig.bool2state c) false = Ok off.

(** A configuration object made by one of the two digital constructors. *)
Definition digital_config_of {X : XBee} (config : gmap string PyVal)
    (c : ZigBeeDigitalPinConfig.t) : Prop :=
  ZigBeeDigitalInConfig.__init__ config = Ok c \/
  ZigBeeDigitalOutConfig.__init__ config = Ok c.

(** Both digital constructors accept the mapping, and the configurations
    they make map [True] to [on] and [False] to [off]. *)
Definition builds_with {X : XBee} (config : gmap string PyVal)
    (on off : Raw) : Prop :=
  exists cin cout,
    ZigBeeDigitalInConfig.__init__ config = Ok cin /\
    ZigBeeDigitalOutConfig.__init__ config = Ok cout /\
    maps_bools_to cin on off /\ maps_bools_to cout on off.

(** Both digital constructors raise [e] on the mapping. *)
Definition fails_with {X : XBee} (config : gmap string PyVal) (e : exn)
  : Prop :=
  ZigBeeDigitalInConfig.__init__ config = Raise e /\
  ZigBeeDigitalOutConfig.__init__ config = Raise e.

(** The [on_state] entry is there and is neither a [str] nor a [bytes]. *)
Definition on_state_not_text (config : gmap string PyVal) : Prop :=
  match config !! "on_state" with
  | Some (VStr _) | Some (VBytes _) | None => False
  | Some _ => True
  end.

(** What [_set_state] reports to the platform after a successful write of
    [b]: the new state if the entity is not polled, nothing if it is. *)
Definition reported {X : XBee} {DEVICE : ZigBee}
    (cfg : ZigBeeDigitalPinConfig.t) (b : bool) : list Event :=
  if py_truthy (ZigBeeDigitalPinConfig.should_poll cfg) then []
  else [EvStateReported (if b then STATE_ON else STATE_OFF)].

(** The globals once [setup] has copied the driver's constants: [DEVICE] is
    not touched by that. *)
Definition with_constants {X : XBee} {SL : SerialLib} (g : Globals.t)
  : Globals.t :=
  {| Globals.GPIO_DIGITAL_OUTPUT_LOW := Some GPIO_DIGITAL_OUTPUT_LOW;
     Globals.GPIO_DIGITAL_OUTPUT_HIGH := Some GPIO_DIGITAL_OUTPUT_HIGH;
     Globals.ADC_PERCENTAGE := Some ADC_PERCENTAGE;
     Globals.DEVICE := Globals.DEVICE g |}.

(** The globals after a [setup] that opened the port [ser]. *)
Definition with_device {X : XBee} {SL : SerialLib} (ser : Port)
  : Globals.t :=
  {| Globals.GPIO_DIGITAL_OUTPUT_LOW := Some GPIO_DIGITAL_OUTPUT_LOW;
     Globals.GPIO_DIGITAL_OUTPUT_HIGH := Some GPIO_DIGITAL_OUTPUT_HIGH;
     Globals.ADC_PERCENTAGE := Some ADC_PERCENTAGE;
     Globals.DEVICE := Some ser |}.

(** [binascii.hexlify], the inverse direction of [unhexlify]. *)
Definition hex_char (n : N) : ascii :=
  ascii_of_N (if (n <? 10)%N then n + 48 else n + 87).

Fixpoint hexlify (bs : list byte) : string :=
  match bs with
  | [] => EmptyString
  | b :: r =>
      let n := N_of_ascii (ascii_of_byte b) in
      String (hex_char (n / 16)) (String (hex_char (n mod 16)) (hexlify r))
  end.

(** Every character of the text is a hexadecimal digit. *)
Definition all_hex (s : string) : bool :=
  forallb (fun c => bool_decide (is_Some (hex_digit c)))
    (list_ascii_of_string s).

(** A text that [unhexlify] can decode: hexadecimal digits, in pairs. *)
Definition is_hex_text (s : string) : bool :=
  Nat.even (String.length s) && all_hex s.

(** [f] is a normal binary64 number and no binary64 number is nearer to the
    fraction [num / den]: the distance is at most half a unit in the last
    place. *)
Definition nearest_binary64 (num den : Z) (f : spec_float) : Prop :=
  match f with
  | S754_finite false m e =>
      2 ^ 52 <= Zpos m < 2 ^ 53 /\ -1074 <= e < 0 /\ 0 < den /\
      2 * Z.abs (Zpos m * den - num * 2 ^ (- e)) <= den
  | _ => False
  end.

(** ** Properties *)

(** *** Auxiliary facts on texts *)

Lemma ascii_lower_l c : ascii_lower c = "l"%char -> c = "l"%char \/ c = "L"%char.
Proof.
  destruct c as [[] [] [] [] [] [] [] []]; vm_compute; intros H;
    first [discriminate H | now left | now right].
Qed.

Lemma ascii_lower_o c : ascii_lower c = "o"%char -> c = "o"%char \/ c = "O"%char.
Proof.
  destruct c as [[] [] [] [] [] [] [] []]; vm_compute; intros H;
    first [discriminate H | now left | now right].
Qed.

Lemma ascii_lower_w c : ascii_lower c = "w"%char -> c = "w"%char \/ c = "W"%char.
Proof.
  destruct c as [[] [] [] [] [] [] [] []]; vm_compute; intros H;
    first [discriminate H | now left | now right].
Qed.

(** Lowering a text gives [low] exactly for the eight spellings of the word. *)
Lemma str_lower_low s : str_lower s = "low" <-> In s low_spellings.
Proof.
  split.
  - destruct s as [|a [|b [|c [|d r]]]]; simpl; try discriminate.
    intros H. injection H as Ha Hb Hc.
    destruct (ascii_lower_l _ Ha), (ascii_lower_o _ Hb), (ascii_lower_w _ Hc);
      subst; tauto.
  - simpl. intros H. repeat destruct H as [H | H]; try subst s; try reflexivity.
    destruct H.
Qed.

Lemma py_eq_str_lower_low s :
  py_eq_str (VStr (str_lower s)) "low" = bool_decide (In s low_spellings).
Proof.
  simpl. destruct (String.eqb_spec (str_lower s) "low") as [E | E].
  - symmetry. apply bool_decide_eq_true. now apply str_lower_low.
  - symmetry. apply bool_decide_eq_false. intros H. apply E.
    now apply str_lower_low.
Qed.

(** *** The sample mappings, entry by entry *)

Lemma lamp_entries :
  lamp_mapping !! "name" = Some (VStr "Lamp") /\
  lamp_mapping !! "pin" = Some (VStr "D0") /\
  lamp_mapping !! "on_state" = Some (VStr "low") /\
  lamp_mapping !! "poll" = None /\
  lamp_mapping !! "address" = None.
Proof. unfold lamp_mapping. repeat split; by simplify_map_eq. Qed.


(** *** Polarity maps *)

Section Polarity.
Context {X : XBee}.

Abbreviation LOW := GPIO_DIGITAL_OUTPUT_LOW.
Abbreviation HIGH := GPIO_DIGITAL_OUTPUT_HIGH.

Lemma boolean_maps_text (config : gmap string PyVal) s :
  config !! "on_state" = Some (VStr s) ->
  ZigBeeDigitalPinConfig.boolean_maps config =
    let b2s := if bool_decide (In s low_spellings)
               then [(true, LOW); (false, HIGH)]
               else [(true, HIGH); (false, LOW)] in
    Ok (b2s, dict_swap b2s).
Proof.
  intros H. unfold ZigBeeDigitalPinConfig.boolean_maps, config_get.
  rewrite H. cbn [py_lower]. rewrite py_eq_str_lower_low.
  reflexivity.
Qed.

Lemma boolean_maps_high (config : gmap string PyVal) :
  match config !! "on_state" with
  | None | Some (VBytes _) => True
  | _ => False
  end ->
  ZigBeeDigitalPinConfig.boolean_maps config =
    Ok ([(true, HIGH); (false, LOW)],
        dict_swap [(true, HIGH); (false, LOW)]).
Proof.
  unfold ZigBeeDigitalPinConfig.boolean_maps, config_get.
  destruct (config !! "on_state") as [[]|]; simpl; intros H;
    try destruct H; reflexivity.
Qed.

Lemma boolean_maps_not_text (config : gmap string PyVal) v :
  config !! "on_state" = Some v ->
  match v with VStr _ | VBytes _ => False | _ => True end ->
  ZigBeeDigitalPinConfig.boolean_maps config = Raise (AttributeError "lower").
Proof.
  intros H. unfold ZigBeeDigitalPinConfig.boolean_maps, config_get.
  rewrite H. destruct v; simpl; intros Hv; try destruct Hv; reflexivity.
Qed.

(** The constructors pass on what [boolean_maps] gives. *)
Lemma init_of_boolean_maps (config : gmap string PyVal) b2s s2b :
  ZigBeeDigitalPinConfig.boolean_maps config = Ok (b2s, s2b) ->
  exists cin cout,
    ZigBeeDigitalInConfig.__init__ config = Ok cin /\
    ZigBeeDigitalOutConfig.__init__ config = Ok cout /\
    ZigBeeDigitalPinConfig.bool2state cin = b2s /\
    ZigBeeDigitalPinConfig.bool2state cout = b2s /\
    ZigBeeDigitalPinConfig.state2bool cin = s2b /\
    ZigBeeDigitalPinConfig.state2bool cout = s2b.
Proof.
  intros H.
  unfold ZigBeeDigitalOutConfig.__init__, ZigBeeDigitalPinConfig.__init__.
  cbn [ZigBeeConfig.__init__ ZigBeeConfig._config]. rewrite H.
  eexists _, _. repeat split; reflexivity.
Qed.

Lemma init_of_boolean_maps_raise (config : gmap string PyVal) e :
  ZigBeeDigitalPinConfig.boolean_maps config = Raise e ->
  fails_with config e.
Proof.
  intros H. unfold fails_with.
  unfold ZigBeeDigitalOutConfig.__init__, ZigBeeDigitalPinConfig.__init__.
  cbn [ZigBeeConfig.__init__ ZigBeeConfig._config]. rewrite H. now split.
Qed.

Lemma builds_with_maps (config : gmap string PyVal) on off s2b :
  ZigBeeDigitalPinConfig.boolean_maps config =
    Ok ([(true, on); (false, off)], s2b) ->
  builds_with config on off.
Proof.
  intros H. destruct (init_of_boolean_maps _ _ _ H)
    as (cin & cout & Hin & Hout & Bin & Bout & _).
  exists cin, cout. unfold maps_bools_to. rewrite Bin, Bout.
  repeat split; try assumption; reflexivity.
Qed.

(** What a configuration made by a digital constructor holds. *)
Lemma digital_config_shape (config : gmap string PyVal) c :
  digital_config_of config c ->
  (ZigBeeDigitalPinConfig.bool2state c = [(true, LOW); (false, HIGH)] \/
   ZigBeeDigitalPinConfig.bool2state c = [(true, HIGH); (false, LOW)]) /\
  ZigBeeDigitalPinConfig.state2bool c =
    dict_swap (ZigBeeDigitalPinConfig.bool2state c).
Proof.
  intros Hc.
  assert (exists b2s,
    ZigBeeDigitalPinConfig.boolean_maps config = Ok (b2s, dict_swap b2s) /\
    (b2s = [(true, LOW); (false, HIGH)] \/
     b2s = [(true, HIGH); (false, LOW)])) as (b2s & Hm & Hb).
  { unfold ZigBeeDigitalPinConfig.boolean_maps in *.
    unfold digital_config_of, ZigBeeDigitalOutConfig.__init__,
      ZigBeeDigitalPinConfig.__init__,
      ZigBeeDigitalPinConfig.boolean_maps in Hc.
    cbn [ZigBeeConfig.__init__ ZigBeeConfig._config] in Hc.
    destruct (py_lower _) as [lowered|e]; [|destruct Hc; discriminate].
    destruct (py_eq_str lowered "low"); eexists; split; eauto. }
  destruct (init_of_boolean_maps _ _ _ Hm)
    as (cin & cout & Hin & Hout & Bin & Bout & Sin & Sout).
  destruct Hc as [Hc | Hc].
  - rewrite Hin in Hc. injection Hc as <-. rewrite Bin, Sin. now split.
  - rewrite Hout in Hc. injection Hc as <-. rewrite Bout, Sout. now split.
Qed.
End Polarity.

Lemma dict_swap_two {V : Type} `{EqDecision V} (x y : V) :
  x <> y -> dict_swap [(true, x); (false, y)] = [(x, true); (y, false)].
Proof.
  intros Hxy. unfold dict_swap. cbn. case_decide; [congruence | reflexivity].
Qed.

Section PolarityClaims.
Context {X : XBee}.

Abbreviation LOW := GPIO_DIGITAL_OUTPUT_LOW.
Abbreviation HIGH := GPIO_DIGITAL_OUTPUT_HIGH.

(** C1, as amended. Whatever else the mapping holds: without an
    [on_state] entry both digital constructors succeed and map [True] to
    HIGH and [False] to LOW; with a [str] entry they succeed, and map
    [True] to LOW and [False] to HIGH exactly when the text is one of the
    spellings of [low] (any case), and [True] to HIGH and [False] to LOW
    for every other text; a [bytes] entry is treated as high as well; an
    entry that is no text ([None], a boolean, a number) makes both
    constructors raise [AttributeError]. *)
Theorem boolean_maps_polarity (config : gmap string PyVal) :
  builds_with (delete "on_state" config) HIGH LOW /\
  forall v : PyVal,
    match v with
    | VStr s =>
        if bool_decide (In s low_spellings)
        then builds_with (<["on_state" := v]> config) LOW HIGH
        else builds_with (<["on_state" := v]> config) HIGH LOW
    | VBytes _ => builds_with (<["on_state" := v]> config) HIGH LOW
    | _ => fails_with (<["on_state" := v]> config) (AttributeError "lower")
    end.
Proof.
  split.
  - eapply builds_with_maps, boolean_maps_high.
    now rewrite lookup_delete_eq.
  - intros v.
    pose proof (lookup_insert_eq config "on_state" v) as Hv.
    destruct v as [| b | z | f | s | b].
    + apply init_of_boolean_maps_raise.
      now apply (boolean_maps_not_text _ _ Hv).
    + apply init_of_boolean_maps_raise.
      now apply (boolean_maps_not_text _ _ Hv).
    + apply init_of_boolean_maps_raise.
      now apply (boolean_maps_not_text _ _ Hv).
    + apply init_of_boolean_maps_raise.
      now apply (boolean_maps_not_text _ _ Hv).
    + pose proof (boolean_maps_text _ _ Hv) as Hm. cbv zeta in Hm.
      destruct (bool_decide (In s low_spellings));
        eapply builds_with_maps; exact Hm.
    + eapply builds_with_maps, boolean_maps_high. now rewrite Hv.
Qed.

(** C2. For every configuration made by a digital constructor, if the LOW
    and HIGH levels of the driver differ, then [state2bool] holds exactly
    the swapped entries of [bool2state]; looking a boolean up in
    [bool2state] and the result in [state2bool] gives the boolean back;
    and looking LOW or HIGH up in [state2bool] and the result in
    [bool2state] gives the level back. *)
Theorem state2bool_inverse (config : gmap string PyVal)
    (c : ZigBeeDigitalPinConfig.t) :
  digital_config_of config c ->
  LOW <> HIGH ->
  (forall (b : bool) (r : Raw),
      dict_get (ZigBeeDigitalPinConfig.bool2state c) b = Some r <->
      dict_get (ZigBeeDigitalPinConfig.state2bool c) r = Some b) /\
  (forall b : bool,
      exists r,
        getitem KBool (ZigBeeDigitalPinConfig.bool2state c) b = Ok r /\
        getitem KRaw (ZigBeeDigitalPinConfig.state2bool c) r = Ok b) /\
  (forall r : Raw,
      r = LOW \/ r = HIGH ->
      exists b,
        getitem KRaw (ZigBeeDigitalPinConfig.state2bool c) r = Ok b /\
        getitem KBool (ZigBeeDigitalPinConfig.bool2state c) b = Ok r).
Proof.
  intros Hc Hne.
  destruct (digital_config_shape _ _ Hc) as [Hb Hs].
  rewrite Hs. clear Hs Hc.
  assert (HIGH <> LOW) as Hne' by congruence.
  assert (forall x y : Raw, x <> y ->
            (forall (b : bool) (r : Raw),
                dict_get [(true, x); (false, y)] b = Some r <->
                dict_get (dict_swap [(true, x); (false, y)]) r = Some b) /\
            (forall b : bool,
                exists r,
                  getitem KBool [(true, x); (false, y)] b = Ok r /\
                  getitem KRaw (dict_swap [(true, x); (false, y)]) r = Ok b) /\
            (forall r : Raw,
                r = x \/ r = y ->
                exists b,
                  getitem KRaw (dict_swap [(true, x); (false, y)]) r = Ok b /\
                  getitem KBool [(true, x); (false, y)] b = Ok r)) as Hpair.
  { intros x y Hxy. rewrite (dict_swap_two x y Hxy).
    unfold getitem. split; [|split].
    - intros b r. destruct b; cbn; split; intros H;
        repeat case_decide; congruence.
    - intros b. destruct b; [exists x | exists y]; cbn;
        repeat case_decide; try congruence; now split.
    - intros r [-> | ->]; [exists true | exists false]; cbn;
        repeat case_decide; try congruence; now split. }
  destruct Hb as [-> | ->].
  - apply Hpair. congruence.
  - destruct (Hpair HIGH LOW Hne') as (H1 & H2 & H3).
    split; [exact H1 | split; [exact H2 |]].
    intros r Hr. apply H3. tauto.
Qed.
End PolarityClaims.

(** C1, as stated, fails where [on_state] holds a value that is not a text:
    with [on_state: True] the constructor does not give a configuration that
    maps [True] to HIGH; it raises [AttributeError]. *)
Lemma boolean_maps_on_state_bool :
  ZigBeeDigitalPinConfig.__init__ (X := xbee_const)
    {["on_state" := VBool true]} = Raise (AttributeError "lower") /\
  ~ (exists c,
        ZigBeeDigitalPinConfig.__init__ (X := xbee_const)
          {["on_state" := VBool true]} = Ok c /\
        maps_bools_to c GPIO_DIGITAL_OUTPUT_HIGH GPIO_DIGITAL_OUTPUT_LOW).
Proof.
  assert (ZigBeeDigitalPinConfig.__init__ (X := xbee_const)
            {["on_state" := VBool true]} = Raise (AttributeError "lower")) as E.
  { apply (init_of_boolean_maps_raise (X := xbee_const)).
    apply (boolean_maps_not_text _ (VBool true)); [|exact I].
    apply lookup_singleton_eq. }
  split; [exact E |].
  intros (c & Hc & _). rewrite E in Hc. discriminate Hc.
Qed.

(** The lamp's configuration with the constants of [xbee_helper]: an
    instance of C2. *)
Lemma state2bool_inverse_lamp :
  exists c : ZigBeeDigitalPinConfig.t,
    ZigBeeDigitalInConfig.__init__ (X := xbee_const) lamp_mapping = Ok c /\
    (forall (b : bool) (r : list byte),
        dict_get (ZigBeeDigitalPinConfig.bool2state c) b = Some r <->
        dict_get (ZigBeeDigitalPinConfig.state2bool c) r = Some b) /\
    (forall b : bool,
        exists r,
          getitem KBool (ZigBeeDigitalPinConfig.bool2state c) b = Ok (X := xbee_const) r /\
          getitem KRaw (ZigBeeDigitalPinConfig.state2bool c) r = Ok (X := xbee_const) b) /\
    (forall r : list byte,
        r = [x04] \/ r = [x05] ->
        exists b,
          getitem KRaw (ZigBeeDigitalPinConfig.state2bool c) r = Ok (X := xbee_const) b /\
          getitem KBool (ZigBeeDigitalPinConfig.bool2state c) b = Ok (X := xbee_const) r).
Proof.
  destruct (init_of_boolean_maps (X := xbee_const) lamp_mapping _ _
              (boolean_maps_text _ _ (proj1 (proj2 (proj2 lamp_entries)))))
    as (cin & _ & Hin & _).
  exists cin. split; [exact Hin |].
  apply (state2bool_inverse (X := xbee_const) lamp_mapping).
  - left. exact Hin.
  - discriminate.
Defined.

(** Without distinct levels the inverse is lost: if LOW and HIGH were one
    and the same object (both globals are [None] until [setup] has run),
    [state2bool] keeps a single entry. *)
Lemma state2bool_same_levels :
  let X0 : XBee := {| Raw := unit;
                      GPIO_DIGITAL_OUTPUT_LOW := tt;
                      GPIO_DIGITAL_OUTPUT_HIGH := tt;
                      AdcMode := unit;
                      ADC_PERCENTAGE := tt |} in
  exists c,
    ZigBeeDigitalPinConfig.__init__ (X := X0) ∅ = Ok c /\
    getitem KBool (ZigBeeDigitalPinConfig.bool2state c) true = Ok tt /\
    getitem KRaw (ZigBeeDigitalPinConfig.state2bool c) tt = Ok false.
Proof.
  eexists. split; [reflexivity |]. split; reflexivity.
Qed.

(** *** Polling policy *)

Section Polling.
Context {X : XBee}.

(** A configuration made by a digital constructor keeps the mapping. *)
Lemma digital_config_mapping (config : gmap string PyVal) c :
  digital_config_of config c ->
  ZigBeeConfig._config (ZigBeeDigitalPinConfig.super c) = config.
Proof.
  unfold digital_config_of, ZigBeeDigitalOutConfig.__init__,
    ZigBeeDigitalPinConfig.__init__.
  destruct (ZigBeeDigitalPinConfig.boolean_maps _) as [[b2s s2b]|e];
    intros [H | H]; try discriminate H; injection H as <-; reflexivity.
Qed.

(** The digital constructors fail only on an [on_state] that is no text. *)
Lemma digital_init_raise (config : gmap string PyVal) e :
  ZigBeeDigitalInConfig.__init__ config = Raise e \/
  ZigBeeDigitalOutConfig.__init__ config = Raise e ->
  e = AttributeError "lower" /\ on_state_not_text config.
Proof.
  unfold ZigBeeDigitalOutConfig.__init__, ZigBeeDigitalPinConfig.__init__,
    ZigBeeDigitalPinConfig.boolean_maps, on_state_not_text, config_get.
  cbn [ZigBeeConfig.__init__ ZigBeeConfig._config].
  destruct (config !! "on_state") as [[]|]; cbn;
    intros [H | H]; try discriminate H; injection H as <-; now split.
Qed.

(** Both booleans are keys of [bool2state]: the lookup in [_set_state]
    finds a level for either state. *)
Lemma bool2state_total (config : gmap string PyVal) c (b : bool) :
  digital_config_of config c ->
  exists raw : Raw,
    getitem KBool (ZigBeeDigitalPinConfig.bool2state c) b = Ok raw.
Proof.
  intros Hc. destruct (digital_config_shape _ _ Hc) as [[-> | ->] _];
    destruct b; eexists; reflexivity.
Qed.

(** C3. With [explicit dflt] standing for the value under the [poll] key,
    or [dflt] when the key is absent: the analog-input configuration has
    [should_poll = explicit True]; the digital constructors either raise
    because [on_state] is no text, or make a configuration with
    [should_poll = explicit True] for the digital input and
    [should_poll = explicit False] for the digital output. *)
Theorem default_polling_policy (config : gmap string PyVal) :
  let explicit dflt :=
    match config !! "poll" with Some v => v | None => dflt end in
  ZigBeeConfig.should_poll (ZigBeeAnalogInConfig.__init__ config)
    = explicit (VBool true) /\
  match ZigBeeDigitalInConfig.__init__ config with
  | Ok cin => ZigBeeDigitalPinConfig.should_poll cin = explicit (VBool true)
  | Raise e => e = AttributeError "lower" /\ on_state_not_text config
  end /\
  match ZigBeeDigitalOutConfig.__init__ config with
  | Ok cout => ZigBeeDigitalPinConfig.should_poll cout = explicit (VBool false)
  | Raise e => e = AttributeError "lower" /\ on_state_not_text config
  end.
Proof.
  cbv zeta. split; [reflexivity | split].
  - destruct (ZigBeeDigitalInConfig.__init__ config) as [cin|e] eqn:E.
    + unfold ZigBeeDigitalPinConfig.__init__ in E.
      destruct (ZigBeeDigitalPinConfig.boolean_maps _) as [[b2s s2b]|e'];
        [|discriminate E].
      injection E as <-. reflexivity.
    + apply digital_init_raise. now left.
  - destruct (ZigBeeDigitalOutConfig.__init__ config) as [cout|e] eqn:E.
    + unfold ZigBeeDigitalOutConfig.__init__ in E.
      destruct (ZigBeeDigitalPinConfig.__init__ config) as [c|e'];
        [|discriminate E].
      injection E as <-. reflexivity.
    + apply digital_init_raise. now right.
Qed.
End Polling.

(** *** Maximum voltage of an analog input *)

(** The two numbers of the claim, by their binary64 fields. *)
Lemma float_1_2 :
  DEFAULT_ADC_MAX_VOLTS = S754_finite false 5404319552844595 (-52) /\
  nearest_binary64 12 10 DEFAULT_ADC_MAX_VOLTS.
Proof.
  split; [vm_compute; reflexivity |].
  vm_compute. repeat split; intros H; discriminate H.
Qed.

Lemma float_3_3 :
  parse_float "3.3" = Some (S754_finite false 7430939385161318 (-51)) /\
  nearest_binary64 33 10 (S754_finite false 7430939385161318 (-51)).
Proof.
  split; [vm_compute; reflexivity |].
  vm_compute. repeat split; intros H; discriminate H.
Qed.

Section MaxVoltage.
Context {X : XBee}.

(** C4. Whatever else the mapping holds: without a [max_volts] entry
    [max_voltage] is the binary64 number nearest to 1.2; with the text
    ["3.3"] it is the binary64 number nearest to 3.3; a [float] entry is
    returned as it is, whatever its sign or size, and the texts ["0"] and
    ["-3.3"] and the integers [0] and [-1] give zero and negative numbers
    without an error. *)
Theorem analog_max_voltage (config : gmap string PyVal) :
  let max_voltage_with v :=
    ZigBeeAnalogInConfig.max_voltage
      (ZigBeeAnalogInConfig.__init__ (<["max_volts" := v]> config)) in
  ZigBeeAnalogInConfig.max_voltage
    (ZigBeeAnalogInConfig.__init__ (delete "max_volts" config))
    = Ok DEFAULT_ADC_MAX_VOLTS /\
  nearest_binary64 12 10 DEFAULT_ADC_MAX_VOLTS /\
  max_voltage_with (VStr "3.3")
    = Ok (S754_finite false 7430939385161318 (-51)) /\
  nearest_binary64 33 10 (S754_finite false 7430939385161318 (-51)) /\
  (forall f : spec_float, max_voltage_with (VFloat f) = Ok f) /\
  max_voltage_with (VStr "0") = Ok (S754_zero false) /\
  max_voltage_with (VStr "-3.3")
    = Ok (S754_finite true 7430939385161318 (-51)) /\
  max_voltage_with (VInt 0) = Ok (S754_zero false) /\
  max_voltage_with (VInt (-1))
    = Ok (S754_finite true 4503599627370496 (-52)).
Proof.
  cbv zeta.
  unfold ZigBeeAnalogInConfig.max_voltage, ZigBeeAnalogInConfig.__init__,
    ZigBeeConfig.__init__, config_get.
  cbn [ZigBeeConfig._config].
  rewrite lookup_delete_eq.
  rewrite !lookup_insert_eq. cbn [py_float].
  split; [reflexivity |].
  split; [apply float_1_2 |].
  split; [now rewrite (proj1 float_3_3) |].
  split; [apply float_3_3 |].
  split; [intros f; now rewrite lookup_insert_eq |].
  repeat split; vm_compute; reflexivity.
Qed.
End MaxVoltage.


(** *** Addresses *)

Lemma string_pair_ind (P : string -> Prop) :
  P EmptyString ->
  (forall a, P (String a EmptyString)) ->
  (forall a b r, P r -> P (String a (String b r))) ->
  forall s, P s.
Proof.
  intros H0 H1 H2 s.
  enough (P s /\ forall a, P (String a s)) as [H _] by exact H.
  induction s as [|c r [IH1 IH2]]; split; auto.
Qed.

Lemma unhex_pairs_hex s :
  is_hex_text s = true -> exists bs, unhex_pairs s = Some bs.
Proof.
  unfold is_hex_text, all_hex.
  induction s as [|a|a b r IH] using string_pair_ind; intros H.
  - now exists [].
  - discriminate H.
  - cbn in H. apply andb_true_iff in H as [He H].
    apply andb_true_iff in H as [Ha H].
    apply andb_true_iff in H as [Hb Hr].
    apply bool_decide_eq_true in Ha as [hi Ha], Hb as [lo Hb].
    destruct IH as [bs Hbs]; [now rewrite He, Hr |].
    cbn. rewrite Ha, Hb, Hbs. eauto.
Qed.

Lemma unhex_pairs_not_hex s :
  Nat.even (String.length s) = true -> all_hex s = false ->
  unhex_pairs s = None.
Proof.
  unfold all_hex.
  induction s as [|a|a b r IH] using string_pair_ind; intros He H.
  - discriminate H.
  - reflexivity.
  - cbn in H, He |- *.
    destruct (hex_digit a) as [hi|]; [|reflexivity].
    destruct (hex_digit b) as [lo|]; [|reflexivity].
    rewrite IH; [reflexivity | exact He |].
    rewrite !bool_decide_eq_true_2 in H by eauto. exact H.
Qed.

Lemma all_hex_ascii s : all_hex s = true -> is_ascii_str s = true.
Proof.
  unfold all_hex, is_ascii_str. induction s as [|c r IH]; [reflexivity |].
  cbn. intros H. apply andb_true_iff in H as [Hc Hr].
  rewrite (IH Hr), andb_true_r. clear IH Hr.
  apply bool_decide_eq_true in Hc as [n Hn]. revert Hn.
  destruct c as [[] [] [] [] [] [] [] []]; vm_compute; intros Hn;
    first [reflexivity | discriminate Hn].
Qed.

Lemma hexlify_pairs bs : unhex_pairs (hexlify bs) = Some bs.
Proof.
  induction bs as [|b r IH]; [reflexivity |].
  cbn [hexlify unhex_pairs].
  assert (hex_digit (hex_char (N_of_ascii (ascii_of_byte b) / 16))
            = Some (N_of_ascii (ascii_of_byte b) / 16)%N) as -> 
    by (destruct b; reflexivity).
  assert (hex_digit (hex_char (N_of_ascii (ascii_of_byte b) mod 16))
            = Some (N_of_ascii (ascii_of_byte b) mod 16)%N) as ->
    by (destruct b; reflexivity).
  rewrite IH. f_equal. f_equal. destruct b; reflexivity.
Qed.

Lemma hexlify_is_hex_text bs : is_hex_text (hexlify bs) = true.
Proof.
  unfold is_hex_text, all_hex.
  induction bs as [|b r IH]; [reflexivity |].
  apply andb_true_iff in IH as [He Hr].
  cbn [hexlify String.length list_ascii_of_string forallb Nat.even].
  rewrite He, Hr, !andb_true_r. cbn.
  apply andb_true_iff. split; apply bool_decide_eq_true;
    destruct b; vm_compute; eauto.
Qed.

Section Construction.
Context {X : XBee}.

(** The digital constructors look at the [on_state] entry only (and the
    constructor of the base class can not fail at all). *)
Lemma digital_init_on_state (config config' : gmap string PyVal) :
  config !! "on_state" = config' !! "on_state" ->
  is_Ok (ZigBeeDigitalInConfig.__init__ config)
    = is_Ok (ZigBeeDigitalInConfig.__init__ config') /\
  is_Ok (ZigBeeDigitalOutConfig.__init__ config)
    = is_Ok (ZigBeeDigitalOutConfig.__init__ config').
Proof.
  intros H.
  unfold ZigBeeDigitalOutConfig.__init__, ZigBeeDigitalPinConfig.__init__,
    ZigBeeDigitalPinConfig.boolean_maps, config_get.
  cbn [ZigBeeConfig.__init__ ZigBeeConfig._config]. rewrite H.
  destruct (config' !! "on_state") as [[]|]; split; reflexivity.
Qed.

Lemma unhexlify_hex s :
  is_hex_text s = true -> exists bs, unhexlify (VStr s) = Ok bs.
Proof.
  intros H. destruct (unhex_pairs_hex s H) as [bs Hbs].
  apply andb_true_iff in H as [He Ha].
  exists bs. unfold unhexlify, unhexlify_text.
  now rewrite (all_hex_ascii s Ha), He, Hbs.
Qed.

Lemma unhexlify_not_hex s :
  is_hex_text s = false -> exists e, unhexlify (VStr s) = Raise e.
Proof.
  intros H. unfold unhexlify, unhexlify_text.
  destruct (is_ascii_str s); [|eauto].
  destruct (Nat.even (String.length s)) eqn:He; [|eauto].
  rewrite (unhex_pairs_not_hex s He); [eauto |].
  unfold is_hex_text in H. now rewrite He in H.
Qed.

(** C8, as amended. Whatever else the mapping holds: without an [address]
    entry the [address] property is [None]; the property decodes the entry
    when it is read: the hexadecimal text of a byte string gives that byte
    string back, and a text that is not made of pairs of hexadecimal digits
    makes the property raise; the constructors never look at the entry:
    the base constructor always returns, and a digital constructor succeeds
    with the entry exactly when it succeeds without it. *)
Theorem address_decoded_on_access (config : gmap string PyVal) :
  let address_with v :=
    ZigBeeConfig.address (ZigBeeConfig.__init__ (<["address" := v]> config)) in
  ZigBeeConfig.address (ZigBeeConfig.__init__ (delete "address" config))
    = Ok None /\
  (forall bs : list byte, address_with (VStr (hexlify bs)) = Ok (Some bs)) /\
  (forall s : string,
      if is_hex_text s
      then exists bs, address_with (VStr s) = Ok (Some bs)
      else exists e, address_with (VStr s) = Raise e) /\
  (forall v : PyVal,
      is_Ok (ZigBeeDigitalInConfig.__init__ (<["address" := v]> config))
        = is_Ok (ZigBeeDigitalInConfig.__init__ (delete "address" config)) /\
      is_Ok (ZigBeeDigitalOutConfig.__init__ (<["address" := v]> config))
        = is_Ok (ZigBeeDigitalOutConfig.__init__ (delete "address" config))).
Proof.
  cbv zeta. unfold ZigBeeConfig.address, ZigBeeConfig.__init__, config_get.
  cbn [ZigBeeConfig._config].
  split; [now rewrite lookup_delete_eq |].
  split; [|split].
  - intros bs. rewrite lookup_insert_eq.
    destruct (unhexlify_hex _ (hexlify_is_hex_text bs)) as [bs' E].
    rewrite E. revert E. unfold unhexlify, unhexlify_text.
    rewrite hexlify_pairs.
    destruct (is_ascii_str _); [|discriminate].
    destruct (Nat.even _); [|discriminate].
    now intros [= ->].
  - intros s. rewrite lookup_insert_eq.
    destruct (is_hex_text s) eqn:H.
    + destruct (unhexlify_hex s H) as [bs ->]. eauto.
    + destruct (unhexlify_not_hex s H) as [e ->]. eauto.
  - intros v. apply digital_init_on_state.
    rewrite lookup_insert_ne, lookup_delete_ne by discriminate. reflexivity.
Qed.

(** C9, as amended. Whatever else the mapping holds, a missing [pin] or
    [name] entry never makes construction fail, and is an error only when
    the property is read. Without a [pin] entry the [pin] property raises
    [KeyError] when it is read, and so does the [name] property without a
    [name] entry; with the entry the property returns its value. The
    constructors never look at the two entries: the base constructor always
    returns; a digital constructor succeeds without them exactly when it
    succeeds with them; and on a mapping without the entry a digital
    constructor either returns a configuration, whose property then raises
    [KeyError] when it is read, or raises [AttributeError] because
    [on_state] is no text. *)
Theorem required_fields_on_access (config : gmap string PyVal) :
  ZigBeePinConfig.pin (ZigBeeConfig.__init__ (delete "pin" config))
    = Raise (KeyError (KStr "pin")) /\
  ZigBeeConfig.name (ZigBeeConfig.__init__ (delete "name" config))
    = Raise (KeyError (KStr "name")) /\
  (forall v : PyVal,
      ZigBeePinConfig.pin (ZigBeeConfig.__init__ (<["pin" := v]> config))
        = Ok v /\
      ZigBeeConfig.name (ZigBeeConfig.__init__ (<["name" := v]> config))
        = Ok v) /\
  (forall k : string,
      k = "pin" \/ k = "name" ->
      forall v : PyVal,
        is_Ok (ZigBeeDigitalInConfig.__init__ (delete k config))
          = is_Ok (ZigBeeDigitalInConfig.__init__ (<[k := v]> config)) /\
        is_Ok (ZigBeeDigitalOutConfig.__init__ (delete k config))
          = is_Ok (ZigBeeDigitalOutConfig.__init__ (<[k := v]> config))) /\
  (let read_later (init : gmap string PyVal -> Outcome ZigBeeDigitalPinConfig.t)
         (property : ZigBeeDigitalPinConfig.t -> Outcome PyVal)
         (k : string) :=
     match init (delete k config) with
     | Ok c => property c = Raise (KeyError (KStr k))
     | Raise e => e = AttributeError "lower" /\ on_state_not_text config
     end in
   read_later ZigBeeDigitalInConfig.__init__ ZigBeeDigitalPinConfig.pin "pin" /\
   read_later ZigBeeDigitalOutConfig.__init__ ZigBeeDigitalPinConfig.pin "pin" /\
   read_later ZigBeeDigitalInConfig.__init__ ZigBeeDigitalPinConfig.name "name" /\
   read_later ZigBeeDigitalOutConfig.__init__ ZigBeeDigitalPinConfig.name
     "name").
Proof.
  assert (forall k : string, k <> "on_state" ->
            on_state_not_text (delete k config) -> on_state_not_text config)
    as Hnt.
  { intros k Hk. unfold on_state_not_text.
    now rewrite lookup_delete_ne by exact Hk. }
  assert (forall (k : string) c,
            digital_config_of (delete k config) c ->
            config_getitem
              (ZigBeeConfig._config (ZigBeeDigitalPinConfig.super c)) k
              = Raise (KeyError (KStr k))) as Hget.
  { intros k c Hc. rewrite (digital_config_mapping _ _ Hc).
    unfold config_getitem. now rewrite lookup_delete_eq. }
  unfold ZigBeePinConfig.pin, ZigBeeConfig.name, ZigBeeConfig.__init__,
    config_getitem.
  cbn [ZigBeeConfig._config].
  split; [now rewrite lookup_delete_eq |].
  split; [now rewrite lookup_delete_eq |].
  split; [intros v; now rewrite !lookup_insert_eq |].
  split.
  - intros k Hk v. apply digital_init_on_state.
    destruct Hk as [-> | ->];
      rewrite lookup_insert_ne, lookup_delete_ne by discriminate;
      reflexivity.
  - cbv zeta. repeat split.
    + destruct (ZigBeeDigitalInConfig.__init__ (delete "pin" config))
        as [c|e] eqn:E.
      * exact (Hget "pin" c (or_introl E)).
      * destruct (digital_init_raise _ e (or_introl E)) as [-> H].
        split; [reflexivity | now apply (Hnt "pin")].
    + destruct (ZigBeeDigitalOutConfig.__init__ (delete "pin" config))
        as [c|e] eqn:E.
      * exact (Hget "pin" c (or_intror E)).
      * destruct (digital_init_raise _ e (or_intror E)) as [-> H].
        split; [reflexivity | now apply (Hnt "pin")].
    + destruct (ZigBeeDigitalInConfig.__init__ (delete "name" config))
        as [c|e] eqn:E.
      * exact (Hget "name" c (or_introl E)).
      * destruct (digital_init_raise _ e (or_introl E)) as [-> H].
        split; [reflexivity | now apply (Hnt "name")].
    + destruct (ZigBeeDigitalOutConfig.__init__ (delete "name" config))
        as [c|e] eqn:E.
      * exact (Hget "name" c (or_intror E)).
      * destruct (digital_init_raise _ e (or_intror E)) as [-> H].
        split; [reflexivity | now apply (Hnt "name")].
Qed.
End Construction.

(** C8, as stated, fails on an address that is no hexadecimal text: the
    constructor does not raise; it returns a configuration, whose [address]
    property raises when it is read. *)
Lemma address_not_checked_by_init :
  (~ exists e,
       ZigBeeDigitalInConfig.__init__ (X := xbee_const)
         {["address" := VStr "zz"]} = Raise e) /\
  exists c,
    ZigBeeDigitalInConfig.__init__ (X := xbee_const)
      {["address" := VStr "zz"]} = Ok c /\
    ZigBeeDigitalPinConfig.address c
      = Raise (binascii_Error "Non-hexadecimal digit found").
Proof.
  assert (exists c,
    ZigBeeDigitalInConfig.__init__ (X := xbee_const)
      {["address" := VStr "zz"]} = Ok c /\
    ZigBeeDigitalPinConfig.address c
      = Raise (binascii_Error "Non-hexadecimal digit found"))
    as (c & Hc & Ha).
  { assert (ZigBeeDigitalPinConfig.boolean_maps (X := xbee_const)
              {["address" := VStr "zz"]}
            = Ok ([(true, [x05]); (false, [x04])],
                  dict_swap [(true, [x05]); (false, [x04])])) as Hm.
    { apply (boolean_maps_high (X := xbee_const)).
      rewrite lookup_singleton_ne by discriminate. exact I. }
    destruct (init_of_boolean_maps _ _ _ Hm) as (cin & _ & Hin & _).
    exists cin. split; [exact Hin |].
    unfold ZigBeeDigitalPinConfig.address, ZigBeeConfig.address, config_get.
    rewrite (digital_config_mapping _ _ (or_introl Hin)).
    rewrite lookup_singleton_eq. reflexivity. }
  split; [|eauto].
  intros [e He]. rewrite Hc in He. discriminate He.
Qed.

(** C9, as stated, fails on the empty mapping: the constructor does not
    raise; it returns a configuration, whose [pin] and [name] properties
    raise [KeyError] when they are read. *)
Lemma required_fields_not_checked_by_init :
  (~ exists e,
       ZigBeeDigitalInConfig.__init__ (X := xbee_const) ∅ = Raise e) /\
  exists c,
    ZigBeeDigitalInConfig.__init__ (X := xbee_const) ∅ = Ok c /\
    ZigBeeDigitalPinConfig.pin c = Raise (KeyError (KStr "pin")) /\
    ZigBeeDigitalPinConfig.name c = Raise (KeyError (KStr "name")).
Proof.
  split.
  - intros [e He]. discriminate He.
  - eexists. split; [reflexivity |]. split; reflexivity.
Qed.

(** *** Entities *)

Lemma dict_swap_two_get {V : Type} `{EqDecision V} (x y r : V) :
  match dict_get (dict_swap [(true, x); (false, y)]) r with
  | Some _ => r = x \/ r = y
  | None => r <> x /\ r <> y
  end.
Proof.
  unfold dict_swap. cbn. repeat (case_decide; cbn); subst; try tauto.
  all: repeat (case_decide; cbn); subst; tauto.
Qed.

Section Entities.
Context {X : XBee} {DEVICE : ZigBee}.

Abbreviation LOW := GPIO_DIGITAL_OUTPUT_LOW.
Abbreviation HIGH := GPIO_DIGITAL_OUTPUT_HIGH.

(** [_set_state], once its arguments are evaluated, by the outcome of the
    driver's write. *)
Lemma set_state_run (ent : ZigBeeDigitalIn.t) (w : World) (desired : bool)
    (p : PyVal) (raw : Raw) (a : option (list byte)) :
  let cfg := ZigBeeDigitalIn._config ent in
  ZigBeeDigitalPinConfig.pin cfg = Ok p ->
  getitem KBool (ZigBeeDigitalPinConfig.bool2state cfg) desired = Ok raw ->
  ZigBeeDigitalPinConfig.address cfg = Ok a ->
  ZigBeeDigitalOut._set_state desired {| self := ent; world := w |} =
    match set_gpio_pin p raw a (hardware w) with
    | (Ok _, hw') =>
        let ent' := {| ZigBeeDigitalIn._config := cfg;
                       ZigBeeDigitalIn._state := desired |} in
        (Ok tt,
         {| self := ent';
            world :=
              {| hardware := hw';
                 log := log w ++ [EvSetGpioPin p raw a] ++
                        if py_truthy (ZigBeeDigitalIn.should_poll ent)
                        then []
                        else [EvStateReported (ZigBeeDigitalIn.state ent')]
              |} |})
    | (Raise e, hw') =>
        (Raise e,
         {| self := ent;
            world := {| hardware := hw';
                        log := log w ++ [EvSetGpioPin p raw a] |} |})
    end.
Proof.
  intros cfg Hp Hr Ha.
  unfold ZigBeeDigitalOut._set_state, bind, gets, lift, modify,
    DEVICE_set_gpio_pin, call_device.
  cbn [self world]. fold cfg. rewrite Hp, Hr, Ha.
  cbn [record hardware log].
  destruct (set_gpio_pin p raw a (hardware w)) as [[[]|e] hw'];
    [|reflexivity].
  unfold on_self, ZigBeeDigitalIn.should_poll. cbn [self world ZigBeeDigitalIn._config].
  destruct (py_truthy _); cbn.
  - reflexivity.
  - unfold update_ha_state, on_world, record. cbn.
    now rewrite <- app_assoc.
Qed.

(** [ZigBeeDigitalIn.update], once its arguments are evaluated, by the
    outcome of the driver's read. *)
Lemma digital_update_run (ent : ZigBeeDigitalIn.t) (w : World)
    (p : PyVal) (a : option (list byte)) :
  let cfg := ZigBeeDigitalIn._config ent in
  ZigBeeDigitalPinConfig.pin cfg = Ok p ->
  ZigBeeDigitalPinConfig.address cfg = Ok a ->
  ZigBeeDigitalIn.update {| self := ent; world := w |} =
    let w' hw' := {| hardware := hw'; log := log w ++ [EvGetGpioPin p a] |} in
    match get_gpio_pin p a (hardware w) with
    | (Ok r, hw') =>
        match dict_get (ZigBeeDigitalPinConfig.state2bool cfg) r with
        | Some b =>
            (Ok tt,
             {| self := {| ZigBeeDigitalIn._config := cfg;
                           ZigBeeDigitalIn._state := b |};
                world := w' hw' |})
        | None =>
            (Raise (KeyError (KRaw r)), {| self := ent; world := w' hw' |})
        end
    | (Raise e, hw') => (Raise e, {| self := ent; world := w' hw' |})
    end.
Proof.
  intros cfg Hp Ha.
  unfold ZigBeeDigitalIn.update, bind, gets, lift, modify,
    DEVICE_get_gpio_pin, call_device, getitem.
  cbn [self world]. fold cfg. rewrite Hp, Ha.
  cbn [record hardware log].
  destruct (get_gpio_pin p a (hardware w)) as [[r|e] hw']; [|reflexivity].
  cbn [self]. fold cfg.
  destruct (dict_get _ r); reflexivity.
Qed.

(** [ZigBeeAnalogIn.update], once its arguments are evaluated, by the
    outcome of the driver's read. *)
Lemma analog_update_run (ent : ZigBeeAnalogIn.t) (w : World)
    (p : PyVal) (mv : spec_float) (a : option (list byte)) :
  let cfg := ZigBeeAnalogIn._config ent in
  ZigBeePinConfig.pin cfg = Ok p ->
  ZigBeeAnalogInConfig.max_voltage cfg = Ok mv ->
  ZigBeeConfig.address cfg = Ok a ->
  ZigBeeAnalogIn.update {| self := ent; world := w |} =
    let w' hw' :=
      {| hardware := hw';
         log := log w ++ [EvReadAnalogPin p mv a ADC_PERCENTAGE] |} in
    match read_analog_pin p mv a ADC_PERCENTAGE (hardware w) with
    | (Ok v, hw') =>
        (Ok tt,
         {| self := {| ZigBeeAnalogIn._config := cfg;
                       ZigBeeAnalogIn._value := v |};
            world := w' hw' |})
    | (Raise e, hw') => (Raise e, {| self := ent; world := w' hw' |})
    end.
Proof.
  intros cfg Hp Hm Ha.
  unfold ZigBeeAnalogIn.update, bind, gets, lift, modify,
    DEVICE_read_analog_pin, call_device.
  cbn [self world]. fold cfg. rewrite Hp, Hm, Ha.
  cbn [record hardware log].
  destruct (read_analog_pin p mv a ADC_PERCENTAGE (hardware w))
    as [[v|e] hw']; reflexivity.
Qed.


(** X18. If the [pin] property raises, or [pin] is there and the [address]
    property raises, then [ZigBeeDigitalIn.update] raises that error and
    neither the object nor the world changes: a property that raises stops
    [update] before the device is called. *)
Lemma digital_update_bad_config (ent : ZigBeeDigitalIn.t) (w : World) e :
  let cfg := ZigBeeDigitalIn._config ent in
  ZigBeeDigitalPinConfig.pin cfg = Raise e \/
  (is_Ok (ZigBeeDigitalPinConfig.pin cfg) = true /\
   ZigBeeDigitalPinConfig.address cfg = Raise e) ->
  ZigBeeDigitalIn.update {| self := ent; world := w |}
    = (Raise e, {| self := ent; world := w |}).
Proof.
  intros cfg H.
  unfold ZigBeeDigitalIn.update, bind, gets, lift. cbn [self]. fold cfg.
  destruct H as [-> | [Hp ->]]; [reflexivity |].
  destruct (ZigBeeDigitalPinConfig.pin cfg); [reflexivity | discriminate Hp].
Qed.
End Entities.

Section EntityClaims.
Context {X : XBee} {DEVICE : ZigBee}.

Abbreviation LOW := GPIO_DIGITAL_OUTPUT_LOW.
Abbreviation HIGH := GPIO_DIGITAL_OUTPUT_HIGH.

(** C5. A digital output with configuration [cfg] and cached state [prior]
    is asked for the state [desired]; [pin], [bool2state[desired]] and
    [address] evaluate to [p], [raw] and [a], and the driver's write of
    [raw] succeeds. Then [_set_state] returns, the cached state is
    [desired], the device was asked once to set [p] to [raw] at [a], and
    after that the new state was reported to the platform if [should_poll]
    is false, and nothing was reported if it is true. *)
Theorem set_state_success (cfg : ZigBeeDigitalPinConfig.t)
    (prior desired : bool) (w : World)
    (p : PyVal) (raw : Raw) (a : option (list byte)) (hw' : HW) :
  ZigBeeDigitalPinConfig.pin cfg = Ok p ->
  getitem KBool (ZigBeeDigitalPinConfig.bool2state cfg) desired = Ok raw ->
  ZigBeeDigitalPinConfig.address cfg = Ok a ->
  set_gpio_pin p raw a (hardware w) = (Ok tt, hw') ->
  ZigBeeDigitalOut._set_state desired
    {| self := {| ZigBeeDigitalIn._config := cfg;
                  ZigBeeDigitalIn._state := prior |};
       world := w |}
  = (Ok tt,
     {| self := {| ZigBeeDigitalIn._config := cfg;
                   ZigBeeDigitalIn._state := desired |};
        world :=
          {| hardware := hw';
             log := log w ++ [EvSetGpioPin p raw a] ++
                    if py_truthy (ZigBeeDigitalPinConfig.should_poll cfg)
                    then []
                    else [EvStateReported
                            (if desired then STATE_ON else STATE_OFF)] |} |}).
Proof.
  intros Hp Hr Ha Hd.
  rewrite (set_state_run
             {| ZigBeeDigitalIn._config := cfg;
                ZigBeeDigitalIn._state := prior |} w desired p raw a Hp Hr Ha),
    Hd.
  reflexivity.
Qed.

(** C6. In the same situation, if the driver's write raises [e], then
    [_set_state] raises [e], the object is as it was, with the cached state
    [prior], and nothing was reported to the platform: the log has grown by
    the call of the device only. *)
Theorem set_state_failure (cfg : ZigBeeDigitalPinConfig.t)
    (prior desired : bool) (w : World)
    (p : PyVal) (raw : Raw) (a : option (list byte)) (hw' : HW) (e : exn) :
  ZigBeeDigitalPinConfig.pin cfg = Ok p ->
  getitem KBool (ZigBeeDigitalPinConfig.bool2state cfg) desired = Ok raw ->
  ZigBeeDigitalPinConfig.address cfg = Ok a ->
  set_gpio_pin p raw a (hardware w) = (Raise e, hw') ->
  ZigBeeDigitalOut._set_state desired
    {| self := {| ZigBeeDigitalIn._config := cfg;
                  ZigBeeDigitalIn._state := prior |};
       world := w |}
  = (Raise e,
     {| self := {| ZigBeeDigitalIn._config := cfg;
                   ZigBeeDigitalIn._state := prior |};
        world := {| hardware := hw';
                    log := log w ++ [EvSetGpioPin p raw a] |} |}).
Proof.
  intros Hp Hr Ha Hd.
  rewrite (set_state_run
             {| ZigBeeDigitalIn._config := cfg;
                ZigBeeDigitalIn._state := prior |} w desired p raw a Hp Hr Ha),
    Hd.
  reflexivity.
Qed.

(** C7. A digital input whose configuration [cfg] was made by a digital
    constructor has the cached state [prior]; [pin] and [address] evaluate
    to [p] and [a], and the driver's read returns the level [r]. If [r] is
    neither LOW nor HIGH, [update] raises the [KeyError] of the failed
    [state2bool] lookup (the specification's UnmappedRawLevelError) and the
    cached state is still [prior]. If [r] is LOW or HIGH, [update] returns
    and the cached state is [state2bool[r]]. *)
Theorem update_unmapped_level (config : gmap string PyVal)
    (cfg : ZigBeeDigitalPinConfig.t) (prior : bool) (w : World)
    (p : PyVal) (a : option (list byte)) (r : Raw) (hw' : HW) :
  digital_config_of config cfg ->
  ZigBeeDigitalPinConfig.pin cfg = Ok p ->
  ZigBeeDigitalPinConfig.address cfg = Ok a ->
  get_gpio_pin p a (hardware w) = (Ok r, hw') ->
  let after st :=
    {| self := {| ZigBeeDigitalIn._config := cfg;
                  ZigBeeDigitalIn._state := st |};
       world := {| hardware := hw'; log := log w ++ [EvGetGpioPin p a] |} |} in
  let before :=
    {| self := {| ZigBeeDigitalIn._config := cfg;
                  ZigBeeDigitalIn._state := prior |};
       world := w |} in
  (r <> LOW /\ r <> HIGH ->
   ZigBeeDigitalIn.update before = (Raise (KeyError (KRaw r)), after prior)) /\
  (r = LOW \/ r = HIGH ->
   exists b,
     getitem KRaw (ZigBeeDigitalPinConfig.state2bool cfg) r = Ok b /\
     ZigBeeDigitalIn.update before = (Ok tt, after b)).
Proof.
  intros Hc Hp Ha Hd after before. unfold before, after.
  rewrite (digital_update_run
             {| ZigBeeDigitalIn._config := cfg;
                ZigBeeDigitalIn._state := prior |} w p a Hp Ha), Hd.
  cbn [ZigBeeDigitalIn._config]. unfold getitem.
  destruct (digital_config_shape _ _ Hc) as [Hb Hs]. rewrite Hs.
  assert (forall x y : Raw,
             (r = x \/ r = y -> r = LOW \/ r = HIGH) ->
             (r = LOW \/ r = HIGH -> r = x \/ r = y) ->
             match dict_get (dict_swap [(true, x); (false, y)]) r with
             | Some _ => r = LOW \/ r = HIGH
             | None => r <> LOW /\ r <> HIGH
             end) as Hcase.
  { intros x y H1 H2. pose proof (dict_swap_two_get x y r) as H.
    destruct (dict_get _ r); [tauto |]. split; intros ->; tauto. }
  destruct Hb as [-> | ->].
  - specialize (Hcase LOW HIGH). destruct (dict_get _ r) as [b|].
    + split; [intros [H1 H2]; exfalso; tauto | intros _; eauto].
    + split; [reflexivity | intros H; exfalso; tauto].
  - specialize (Hcase HIGH LOW). destruct (dict_get _ r) as [b|].
    + split; [intros [H1 H2]; exfalso; tauto | intros _; eauto].
    + split; [reflexivity | intros H; exfalso; tauto].
Qed.

End EntityClaims.

(** *** The sample configurations *)

Lemma lamp_config_init :
  ZigBeeDigitalInConfig.__init__ lamp_mapping = Ok (lamp_config true) /\
  ZigBeeDigitalOutConfig.__init__ lamp_mapping = Ok (lamp_config false).
Proof.
  destruct lamp_entries as (_ & _ & Hon & Hpoll & _).
  pose proof (boolean_maps_text (X := xbee_const) _ _ Hon) as Hm.
  rewrite bool_decide_eq_true_2 in Hm by (simpl; tauto).
  unfold ZigBeeDigitalOutConfig.__init__, ZigBeeDigitalPinConfig.__init__.
  cbn [ZigBeeConfig.__init__ ZigBeeConfig._config]. rewrite Hm.
  unfold config_get. rewrite Hpoll. split; reflexivity.
Qed.

Lemma lamp_config_properties (poll : bool) :
  ZigBeeDigitalPinConfig.pin (lamp_config poll) = Ok (VStr "D0") /\
  ZigBeeDigitalPinConfig.address (lamp_config poll) = Ok None.
Proof.
  destruct lamp_entries as (_ & Hpin & _ & _ & Haddr).
  unfold ZigBeeDigitalPinConfig.pin, ZigBeePinConfig.pin, config_getitem,
    ZigBeeDigitalPinConfig.address, ZigBeeConfig.address, config_get.
  cbn [lamp_config ZigBeeDigitalPinConfig.super ZigBeeConfig._config].
  rewrite Hpin, Haddr. split; reflexivity.
Qed.



(** *** The claims on the sample device *)

(** C5 on the lamp: switched on over a working link, the pin is driven low;
    the state is reported at once when the lamp is not polled, and not
    reported when it is polled. *)
Lemma set_state_success_lamp :
  ZigBeeDigitalOut._set_state (DEVICE := sim_device) true
    {| self := {| ZigBeeDigitalIn._config := lamp_config false;
                  ZigBeeDigitalIn._state := false |};
       world := sim_world true [x05] VNone |}
  = (Ok tt,
     {| self := {| ZigBeeDigitalIn._config := lamp_config false;
                   ZigBeeDigitalIn._state := true |};
        world :=
          {| hardware := sim_hw true [x04] VNone;
             log := [EvSetGpioPin (VStr "D0") GPIO_DIGITAL_OUTPUT_LOW None;
                     EvStateReported (VStr "on")] |} |}) /\
  ZigBeeDigitalOut._set_state (DEVICE := sim_device) true
    {| self := {| ZigBeeDigitalIn._config := lamp_config true;
                  ZigBeeDigitalIn._state := false |};
       world := sim_world true [x05] VNone |}
  = (Ok tt,
     {| self := {| ZigBeeDigitalIn._config := lamp_config true;
                   ZigBeeDigitalIn._state := true |};
        world :=
          {| hardware := sim_hw true [x04] VNone;
             log := [EvSetGpioPin (VStr "D0") GPIO_DIGITAL_OUTPUT_LOW None] |} |}).
Proof.
  split.
  - exact (set_state_success (DEVICE := sim_device) (lamp_config false)
             false true (sim_world true [x05] VNone) (VStr "D0")
             GPIO_DIGITAL_OUTPUT_LOW None
             (sim_hw true [x04] VNone)
             (proj1 (lamp_config_properties false)) eq_refl
             (proj2 (lamp_config_properties false)) eq_refl).
  - exact (set_state_success (DEVICE := sim_device) (lamp_config true)
             false true (sim_world true [x05] VNone) (VStr "D0")
             GPIO_DIGITAL_OUTPUT_LOW None
             (sim_hw true [x04] VNone)
             (proj1 (lamp_config_properties true)) eq_refl
             (proj2 (lamp_config_properties true)) eq_refl).
Defined.

(** C6 on the lamp: switched on over a dead link, the error of the device
    comes out, the lamp is still off and nothing was reported. *)
Lemma set_state_failure_lamp :
  ZigBeeDigitalOut._set_state (DEVICE := sim_device) true
    {| self := {| ZigBeeDigitalIn._config := lamp_config false;
                  ZigBeeDigitalIn._state := false |};
       world := sim_world false [x05] VNone |}
  = (Raise (DeviceError "no response"),
     {| self := {| ZigBeeDigitalIn._config := lamp_config false;
                   ZigBeeDigitalIn._state := false |};
        world :=
          {| hardware := sim_hw false [x05] VNone;
             log := [EvSetGpioPin (VStr "D0") GPIO_DIGITAL_OUTPUT_LOW None] |} |}).
Proof.
  exact (set_state_failure (DEVICE := sim_device) (lamp_config false)
           false true (sim_world false [x05] VNone) (VStr "D0")
             GPIO_DIGITAL_OUTPUT_LOW None
           (sim_hw false [x05] VNone)
           (DeviceError "no response")
           (proj1 (lamp_config_properties false)) eq_refl
           (proj2 (lamp_config_properties false)) eq_refl).
Defined.

(** C7 on the lamp, which is on when its pin is low: a pin reported as
    disabled makes [update] raise and the lamp stays off; a pin reported
    low switches the lamp on. *)
Lemma update_unmapped_level_lamp :
  ZigBeeDigitalIn.update (DEVICE := sim_device)
    {| self := {| ZigBeeDigitalIn._config := lamp_config true;
                  ZigBeeDigitalIn._state := false |};
       world := sim_world true [x00] VNone |}
  = (Raise (KeyError (KRaw GPIO_DISABLED)),
     {| self := {| ZigBeeDigitalIn._config := lamp_config true;
                   ZigBeeDigitalIn._state := false |};
        world := {| hardware := sim_hw true [x00] VNone;
                    log := [EvGetGpioPin (VStr "D0") None] |} |}) /\
  ZigBeeDigitalIn.update (DEVICE := sim_device)
    {| self := {| ZigBeeDigitalIn._config := lamp_config true;
                  ZigBeeDigitalIn._state := false |};
       world := sim_world true [x04] VNone |}
  = (Ok tt,
     {| self := {| ZigBeeDigitalIn._config := lamp_config true;
                   ZigBeeDigitalIn._state := true |};
        world := {| hardware := sim_hw true [x04] VNone;
                    log := [EvGetGpioPin (VStr "D0") None] |} |}).
Proof.
  split.
  - apply (proj1 (update_unmapped_level (DEVICE := sim_device)
                    lamp_mapping (lamp_config true) false
                    (sim_world true [x00] VNone) (VStr "D0") None
                    GPIO_DISABLED (sim_hw true [x00] VNone)
                    (or_introl (proj1 lamp_config_init))
                    (proj1 (lamp_config_properties true))
                    (proj2 (lamp_config_properties true)) eq_refl)).
    split; discriminate.
  - destruct (proj2 (update_unmapped_level (DEVICE := sim_device)
                       lamp_mapping (lamp_config true) false
                       (sim_world true [x04] VNone) (VStr "D0") None
                       GPIO_DIGITAL_OUTPUT_LOW (sim_hw true [x04] VNone)
                       (or_introl (proj1 lamp_config_init))
                       (proj1 (lamp_config_properties true))
                       (proj2 (lamp_config_properties true)) eq_refl)
                (or_introl eq_refl)) as (b & Hb & Hu).
    vm_compute in Hb. injection Hb as <-. exact Hu.
Defined.


(** *** Further properties of the entities *)

Section EntityProperties.
Context {X : XBee} {DEVICE : ZigBee}.
Local Open Scope py_scope.

Abbreviation LOW := GPIO_DIGITAL_OUTPUT_LOW.
Abbreviation HIGH := GPIO_DIGITAL_OUTPUT_HIGH.

(** X1. When the driver's read raises [e], [ZigBeeDigitalIn.update] raises
    [e] and the object is as it was: the cached state is still [prior]. The
    device was called once. *)
Theorem digital_update_device_failure (cfg : ZigBeeDigitalPinConfig.t)
    (prior : bool) (w : World) (p : PyVal) (a : option (list byte))
    (e : exn) (hw' : HW) :
  ZigBeeDigitalPinConfig.pin cfg = Ok p ->
  ZigBeeDigitalPinConfig.address cfg = Ok a ->
  get_gpio_pin p a (hardware w) = (Raise e, hw') ->
  ZigBeeDigitalIn.update
    {| self := {| ZigBeeDigitalIn._config := cfg;
                  ZigBeeDigitalIn._state := prior |};
       world := w |}
  = (Raise e,
     {| self := {| ZigBeeDigitalIn._config := cfg;
                   ZigBeeDigitalIn._state := prior |};
        world := {| hardware := hw';
                    log := log w ++ [EvGetGpioPin p a] |} |}).
Proof.
  intros Hp Ha Hd.
  rewrite (digital_update_run
             {| ZigBeeDigitalIn._config := cfg;
                ZigBeeDigitalIn._state := prior |} w p a Hp Ha), Hd.
  reflexivity.
Qed.

(** X2. If the [pin] property raises, or [pin] is there and the lookup in
    [bool2state] or, after it, the [address] property raises, then
    [_set_state] raises that error and neither the object nor the world
    changes: the device is not called and nothing is reported. *)
Theorem set_state_bad_config (ent : ZigBeeDigitalIn.t) (w : World)
    (desired : bool) (e : exn) :
  let cfg := ZigBeeDigitalIn._config ent in
  ZigBeeDigitalPinConfig.pin cfg = Raise e \/
  (is_Ok (ZigBeeDigitalPinConfig.pin cfg) = true /\
   getitem KBool (ZigBeeDigitalPinConfig.bool2state cfg) desired = Raise e) \/
  (is_Ok (ZigBeeDigitalPinConfig.pin cfg) = true /\
   is_Ok (getitem KBool (ZigBeeDigitalPinConfig.bool2state cfg) desired)
     = true /\
   ZigBeeDigitalPinConfig.address cfg = Raise e) ->
  ZigBeeDigitalOut._set_state desired {| self := ent; world := w |}
    = (Raise e, {| self := ent; world := w |}).
Proof.
  intros cfg H.
  unfold ZigBeeDigitalOut._set_state, bind, gets, lift. cbn [self].
  fold cfg.
  destruct H as [-> | [[Hp ->] | (Hp & Hr & ->)]]; [reflexivity | |].
  - destruct (ZigBeeDigitalPinConfig.pin cfg);
      [reflexivity | discriminate Hp].
  - destruct (ZigBeeDigitalPinConfig.pin cfg); [|discriminate Hp].
    destruct (getitem _ _ _); [reflexivity | discriminate Hr].
Qed.

(** X3. If one of the properties [pin], [max_voltage] and [address] raises,
    the ones before it being fine, then [ZigBeeAnalogIn.update] raises that
    error and neither the object nor the world changes: the device is not
    called and the cached value stays. *)
Theorem analog_update_bad_config (ent : ZigBeeAnalogIn.t) (w : World)
    (e : exn) :
  let cfg := ZigBeeAnalogIn._config ent in
  ZigBeePinConfig.pin cfg = Raise e \/
  (is_Ok (ZigBeePinConfig.pin cfg) = true /\
   ZigBeeAnalogInConfig.max_voltage cfg = Raise e) \/
  (is_Ok (ZigBeePinConfig.pin cfg) = true /\
   is_Ok (ZigBeeAnalogInConfig.max_voltage cfg) = true /\
   ZigBeeConfig.address cfg = Raise e) ->
  ZigBeeAnalogIn.update {| self := ent; world := w |}
    = (Raise e, {| self := ent; world := w |}).
Proof.
  intros cfg H.
  unfold ZigBeeAnalogIn.update, bind, gets, lift. cbn [self]. fold cfg.
  destruct H as [-> | [[Hp ->] | (Hp & Hm & ->)]]; [reflexivity | |].
  - destruct (ZigBeePinConfig.pin cfg); [reflexivity | discriminate Hp].
  - destruct (ZigBeePinConfig.pin cfg); [|discriminate Hp].
    destruct (ZigBeeAnalogInConfig.max_voltage cfg);
      [reflexivity | discriminate Hm].
Qed.

(** X4. Reading back what was written. For a configuration made by a
    digital constructor and distinct LOW and HIGH levels: when the driver's
    read returns the level that [bool2state] gives for [b], [update]
    returns and the cached state is [b], whatever it was before. *)
Theorem update_reads_back (config : gmap string PyVal)
    (cfg : ZigBeeDigitalPinConfig.t) (prior b : bool) (w : World)
    (p : PyVal) (a : option (list byte)) (raw : Raw) (hw' : HW) :
  digital_config_of config cfg ->
  LOW <> HIGH ->
  ZigBeeDigitalPinConfig.pin cfg = Ok p ->
  ZigBeeDigitalPinConfig.address cfg = Ok a ->
  getitem KBool (ZigBeeDigitalPinConfig.bool2state cfg) b = Ok raw ->
  get_gpio_pin p a (hardware w) = (Ok raw, hw') ->
  ZigBeeDigitalIn.update
    {| self := {| ZigBeeDigitalIn._config := cfg;
                  ZigBeeDigitalIn._state := prior |};
       world := w |}
  = (Ok tt,
     {| self := {| ZigBeeDigitalIn._config := cfg;
                   ZigBeeDigitalIn._state := b |};
        world := {| hardware := hw';
                    log := log w ++ [EvGetGpioPin p a] |} |}).
Proof.
  intros Hc Hne Hp Ha Hr Hd.
  rewrite (digital_update_run
             {| ZigBeeDigitalIn._config := cfg;
                ZigBeeDigitalIn._state := prior |} w p a Hp Ha), Hd.
  cbn [ZigBeeDigitalIn._config].
  destruct (digital_config_shape _ _ Hc) as [Hb Hs]. rewrite Hs.
  assert (HIGH <> LOW) as Hne' by congruence.
  unfold getitem in Hr.
  destruct Hb as [Hb | Hb]; rewrite Hb in Hr |- *;
    rewrite dict_swap_two by assumption;
    destruct b; cbn in Hr; injection Hr as <-; cbn;
    repeat case_decide; try congruence; reflexivity.
Qed.
End EntityProperties.

Section Compositions.
Context {X : XBee} {DEVICE : ZigBee}.
Local Open Scope py_scope.

(** X5. [turn_on] followed by [turn_off], both writes succeeding: the
    device is asked to set the pin to [bool2state[True]] and then to
    [bool2state[False]], each write is followed by its report when the
    entity is not polled, and the cached state is [False] in the end. *)
Theorem turn_on_then_turn_off (cfg : ZigBeeDigitalPinConfig.t)
    (prior : bool) (w : World) (p : PyVal) (a : option (list byte))
    (raw_on raw_off : Raw) (hw1 hw2 : HW) :
  ZigBeeDigitalPinConfig.pin cfg = Ok p ->
  ZigBeeDigitalPinConfig.address cfg = Ok a ->
  getitem KBool (ZigBeeDigitalPinConfig.bool2state cfg) true = Ok raw_on ->
  getitem KBool (ZigBeeDigitalPinConfig.bool2state cfg) false = Ok raw_off ->
  set_gpio_pin p raw_on a (hardware w) = (Ok tt, hw1) ->
  set_gpio_pin p raw_off a hw1 = (Ok tt, hw2) ->
  (ZigBeeDigitalOut.turn_on ;; ZigBeeDigitalOut.turn_off)
    {| self := {| ZigBeeDigitalIn._config := cfg;
                  ZigBeeDigitalIn._state := prior |};
       world := w |}
  = (Ok tt,
     {| self := {| ZigBeeDigitalIn._config := cfg;
                   ZigBeeDigitalIn._state := false |};
        world :=
          {| hardware := hw2;
             log := log w ++ [EvSetGpioPin p raw_on a] ++ reported cfg true
                      ++ [EvSetGpioPin p raw_off a] ++ reported cfg false
          |} |}).
Proof.
  intros Hp Ha Hon Hoff H1 H2.
  unfold ZigBeeDigitalOut.turn_on, ZigBeeDigitalOut.turn_off, bind.
  rewrite (set_state_run
             {| ZigBeeDigitalIn._config := cfg;
                ZigBeeDigitalIn._state := prior |} w true p raw_on a
             Hp Hon Ha), H1.
  cbv beta iota zeta.
  match goal with
  | |- ZigBeeDigitalOut._set_state false {| self := ?e; world := ?w1 |} = _ =>
      rewrite (set_state_run e w1 false p raw_off a Hp Hoff Ha)
  end.
  cbn [hardware log]. rewrite H2. unfold reported.
  cbn [ZigBeeDigitalIn.should_poll ZigBeeDigitalIn._config
       ZigBeeDigitalIn.state ZigBeeDigitalIn.is_on ZigBeeDigitalIn._state].
  rewrite <- !app_assoc. reflexivity.
Qed.

(** X6. [_set_state] followed by [update]: the state that is cached in the
    end is the one of the level that the device reports, [state2bool[r]],
    also when it is not the state that was set just before; no error is
    raised for the difference. *)
Theorem set_state_then_update (cfg : ZigBeeDigitalPinConfig.t)
    (prior desired b : bool) (w : World) (p : PyVal)
    (a : option (list byte)) (raw r : Raw) (hw1 hw2 : HW) :
  ZigBeeDigitalPinConfig.pin cfg = Ok p ->
  ZigBeeDigitalPinConfig.address cfg = Ok a ->
  getitem KBool (ZigBeeDigitalPinConfig.bool2state cfg) desired = Ok raw ->
  set_gpio_pin p raw a (hardware w) = (Ok tt, hw1) ->
  get_gpio_pin p a hw1 = (Ok r, hw2) ->
  getitem KRaw (ZigBeeDigitalPinConfig.state2bool cfg) r = Ok b ->
  (ZigBeeDigitalOut._set_state desired ;; ZigBeeDigitalIn.update)
    {| self := {| ZigBeeDigitalIn._config := cfg;
                  ZigBeeDigitalIn._state := prior |};
       world := w |}
  = (Ok tt,
     {| self := {| ZigBeeDigitalIn._config := cfg;
                   ZigBeeDigitalIn._state := b |};
        world :=
          {| hardware := hw2;
             log := log w ++ [EvSetGpioPin p raw a] ++ reported cfg desired
                      ++ [EvGetGpioPin p a] |} |}).
Proof.
  intros Hp Ha Hr H1 H2 Hb.
  unfold bind at 1.
  rewrite (set_state_run
             {| ZigBeeDigitalIn._config := cfg;
                ZigBeeDigitalIn._state := prior |} w desired p raw a
             Hp Hr Ha), H1.
  cbv beta iota zeta.
  match goal with
  | |- ZigBeeDigitalIn.update {| self := ?e; world := ?w1 |} = _ =>
      rewrite (digital_update_run e w1 p a Hp Ha)
  end.
  cbn [hardware log ZigBeeDigitalIn._config]. rewrite H2.
  unfold getitem in Hb.
  destruct (dict_get _ r) as [b'|]; [|discriminate Hb].
  injection Hb as ->. unfold reported.
  cbn [ZigBeeDigitalIn.should_poll ZigBeeDigitalIn._config
       ZigBeeDigitalIn.state ZigBeeDigitalIn.is_on ZigBeeDigitalIn._state].
  rewrite <- !app_assoc. reflexivity.
Qed.
End Compositions.

(** *** Further properties of the configuration classes *)

Lemma hex_digit_spec (c : ascii) (n : N) :
  hex_digit c = Some n -> (n < 16)%N /\ hex_char n = ascii_lower c.
Proof.
  destruct c as [[] [] [] [] [] [] [] []]; vm_compute; intros H;
    first [discriminate H | injection H as <-; split; reflexivity].
Qed.

Lemma nibbles_of_byte (hi lo : N) :
  (hi < 16)%N -> (lo < 16)%N ->
  let n := N_of_ascii (ascii_of_byte (byte_of_nibbles hi lo)) in
  (n / 16 = hi)%N /\ (n mod 16 = lo)%N.
Proof.
  intros Hhi Hlo. unfold byte_of_nibbles. cbv zeta.
  rewrite ascii_of_byte_of_ascii, N_ascii_embedding by lia.
  split.
  - symmetry. apply (N.div_unique _ 16 hi lo); lia.
  - symmetry. apply (N.mod_unique _ 16 hi lo); lia.
Qed.

Lemma hexlify_unhex_pairs (s : string) (bs : list byte) :
  unhex_pairs s = Some bs ->
  hexlify bs = str_lower s /\ (2 * length bs = String.length s)%nat.
Proof.
  revert bs. induction s as [|a|a b r IH] using string_pair_ind; intros bs H.
  - injection H as <-. split; reflexivity.
  - discriminate H.
  - cbn [unhex_pairs] in H.
    destruct (hex_digit a) as [hi|] eqn:Ea; [|discriminate H].
    destruct (hex_digit b) as [lo|] eqn:Eb; [|discriminate H].
    destruct (unhex_pairs r) as [bs'|]; [|discriminate H].
    injection H as <-.
    destruct (IH bs' eq_refl) as [IH1 IH2].
    destruct (hex_digit_spec a hi Ea) as [Hhi Ha].
    destruct (hex_digit_spec b lo Eb) as [Hlo Hb].
    destruct (nibbles_of_byte hi lo Hhi Hlo) as [Hd Hm].
    cbn [hexlify str_lower length String.length].
    rewrite Hd, Hm, Ha, Hb, IH1. split; [reflexivity | lia].
Qed.

Section ConfigProperties.
Context {X : XBee}.

Abbreviation LOW := GPIO_DIGITAL_OUTPUT_LOW.
Abbreviation HIGH := GPIO_DIGITAL_OUTPUT_HIGH.

(** X7. The two digital constructors fail together, with the same error;
    when they succeed, their configurations hold the same mapping and the
    same two polarity maps, and when the mapping has a [poll] entry they are
    the same configuration altogether. *)
Theorem digital_out_config_like_in (config : gmap string PyVal) :
  match ZigBeeDigitalInConfig.__init__ config,
        ZigBeeDigitalOutConfig.__init__ config with
  | Ok cin, Ok cout =>
      ZigBeeConfig._config (ZigBeeDigitalPinConfig.super cout)
        = ZigBeeConfig._config (ZigBeeDigitalPinConfig.super cin) /\
      ZigBeeDigitalPinConfig.bool2state cout
        = ZigBeeDigitalPinConfig.bool2state cin /\
      ZigBeeDigitalPinConfig.state2bool cout
        = ZigBeeDigitalPinConfig.state2bool cin /\
      (is_Some (config !! "poll") -> cout = cin)
  | Raise e_in, Raise e_out => e_out = e_in
  | _, _ => False
  end.
Proof.
  unfold ZigBeeDigitalOutConfig.__init__, ZigBeeDigitalPinConfig.__init__.
  cbn [ZigBeeConfig.__init__ ZigBeeConfig._config].
  destruct (ZigBeeDigitalPinConfig.boolean_maps config) as [[b2s s2b]|e];
    [|reflexivity].
  cbn. repeat split. intros [v Hv].
  unfold ZigBeeConfig.__init__, config_get. now rewrite Hv.
Qed.

(** X8. For a configuration made by a digital constructor, whether or not
    the LOW and HIGH levels differ: every level that [state2bool] knows is
    LOW or HIGH, and the boolean it gives for the level is one that
    [bool2state] maps to that very level. *)
Theorem state2bool_sound (config : gmap string PyVal)
    (c : ZigBeeDigitalPinConfig.t) (r : Raw) (b : bool) :
  digital_config_of config c ->
  dict_get (ZigBeeDigitalPinConfig.state2bool c) r = Some b ->
  (r = LOW \/ r = HIGH) /\
  dict_get (ZigBeeDigitalPinConfig.bool2state c) b = Some r.
Proof.
  intros Hc. destruct (digital_config_shape _ _ Hc) as [Hb ->].
  destruct Hb as [-> | ->]; unfold dict_swap; cbn;
    repeat (case_decide; cbn); intros Hg; try discriminate Hg;
    injection Hg as <-; subst; (split; [auto |]); cbn;
    repeat (case_decide; cbn); congruence.
Qed.

(** X9. An address given as a text of hexadecimal digit pairs is decoded to
    a byte string of half its length, and the hexadecimal text of that byte
    string is the given text in lower case: upper-case and lower-case
    digits are read alike. *)
Theorem address_hex_round_trip (config : gmap string PyVal) (s : string) :
  is_hex_text s = true ->
  exists bs : list byte,
    ZigBeeConfig.address
      (ZigBeeConfig.__init__ (<["address" := VStr s]> config)) = Ok (Some bs) /\
    hexlify bs = str_lower s /\
    (2 * length bs = String.length s)%nat.
Proof.
  intros H. destruct (unhex_pairs_hex s H) as [bs Hbs].
  apply andb_true_iff in H as [He Ha].
  exists bs. split; [|now apply hexlify_unhex_pairs].
  unfold ZigBeeConfig.address, ZigBeeConfig.__init__, config_get.
  cbn [ZigBeeConfig._config]. rewrite lookup_insert_eq.
  unfold unhexlify, unhexlify_text.
  now rewrite (all_hex_ascii s Ha), He, Hbs.
Qed.
End ConfigProperties.

(** *** [setup] and [close_serial_port] *)

Section SetupProperties.
Context {X : XBee} {SL : SerialLib}.
Local Open Scope py_scope.

(** [setup], by what its steps give. *)
Lemma setup_run (config : gmap string ConfigSection) (s : ModuleState) :
  setup config s =
    let s1 := {| globals := with_constants (globals s); host := host s |} in
    match domain_get config CONF_DEVICE DEFAULT_DEVICE with
    | Raise e => (Raise e, s1)
    | Ok usb_device =>
        match domain_get config CONF_BAUD DEFAULT_BAUD with
        | Raise e => (Raise e, s1)
        | Ok baud_value =>
            match py_int baud_value with
            | Raise e => (Raise e, s1)
            | Ok baud =>
                let called := (host s ++ [EvSerial usb_device baud])%list in
                match Serial usb_device baud with
                | Opened ser =>
                    (Ok true,
                     {| globals := with_device ser;
                        host := called ++ [EvListenOnceStop] |})
                | SerialException _ =>
                    (Ok false,
                     {| globals := with_constants (globals s);
                        host := called ++
                          [EvLoggerException
                             "Unable to open serial port for ZigBee: %s"] |})
                | OtherException e =>
                    (Raise e,
                     {| globals := with_constants (globals s);
                        host := called |})
                end
            end
        end
    end.
Proof.
  unfold setup, bind, set_globals, modify, lift, call_Serial, emit, ret.
  cbn [globals host Globals.GPIO_DIGITAL_OUTPUT_LOW
       Globals.GPIO_DIGITAL_OUTPUT_HIGH Globals.ADC_PERCENTAGE Globals.DEVICE].
  fold (with_constants (globals s)).
  destruct (domain_get config CONF_DEVICE DEFAULT_DEVICE) as [usb|e];
    [|reflexivity].
  destruct (domain_get config CONF_BAUD DEFAULT_BAUD) as [bv|e];
    [|reflexivity].
  destruct (py_int bv) as [baud|e]; [|reflexivity].
  cbv zeta. destruct (Serial usb baud) as [ser|msg|e]; reflexivity.
Qed.

(** X10. When [Serial] raises [SerialException], [setup] catches it and
    returns [False]: the failure is logged, [DEVICE] keeps the value it
    had, no listener for the stop event is registered; the three constants
    of the driver have been copied all the same. *)
Theorem setup_serial_exception (config : gmap string ConfigSection)
    (s : ModuleState) (usb_device baud_value : PyVal) (baud : Z)
    (msg : string) :
  domain_get config CONF_DEVICE DEFAULT_DEVICE = Ok usb_device ->
  domain_get config CONF_BAUD DEFAULT_BAUD = Ok baud_value ->
  py_int baud_value = Ok baud ->
  Serial usb_device baud = SerialException msg ->
  setup config s =
    (Ok false,
     {| globals := with_constants (globals s);
        host := host s ++
          [EvSerial usb_device baud;
           EvLoggerException "Unable to open serial port for ZigBee: %s"] |}).
Proof.
  intros Hd Hb Hi Hs. rewrite setup_run, Hd, Hb, Hi. cbv zeta. rewrite Hs.
  now rewrite <- app_assoc.
Qed.

(** X11. When [Serial] returns the open port, [setup] returns [True],
    [DEVICE] is made of that port, the constants are copied and one
    listener for the stop event is registered, after the port was opened
    with the configured device and the speed [int(baud)]. *)
Theorem setup_opens_port (config : gmap string ConfigSection)
    (s : ModuleState) (usb_device baud_value : PyVal) (baud : Z)
    (ser : Port) :
  domain_get config CONF_DEVICE DEFAULT_DEVICE = Ok usb_device ->
  domain_get config CONF_BAUD DEFAULT_BAUD = Ok baud_value ->
  py_int baud_value = Ok baud ->
  Serial usb_device baud = Opened ser ->
  setup config s =
    (Ok true,
     {| globals := with_device ser;
        host := host s ++ [EvSerial usb_device baud; EvListenOnceStop] |}).
Proof.
  intros Hd Hb Hi Hs. rewrite setup_run, Hd, Hb, Hi. cbv zeta. rewrite Hs.
  now rewrite <- app_assoc.
Qed.

(** X12. Without a section for the component in the configuration, [setup]
    raises [KeyError]; with a section that is no mapping (an empty section
    is [None]) it raises [AttributeError]. In both cases the serial library
    is not called and [DEVICE] keeps its value, but the constants are
    already copied. *)
Theorem setup_without_section (config : gmap string ConfigSection)
    (s : ModuleState) :
  setup (delete DOMAIN config) s =
    (Raise (KeyError (KStr DOMAIN)),
     {| globals := with_constants (globals s); host := host s |}) /\
  forall v : PyVal,
    setup (<[DOMAIN := inl v]> config) s =
      (Raise (AttributeError "get"),
       {| globals := with_constants (globals s); host := host s |}).
Proof.
  split; [|intros v]; rewrite setup_run; unfold domain_get.
  - now rewrite lookup_delete_eq.
  - now rewrite lookup_insert_eq.
Qed.

(** X13. A speed that [int] rejects is no [SerialException]: the error of
    [int] comes out of [setup] (it does not return [False]), and the serial
    library has not been called. *)
Theorem setup_bad_baud (config : gmap string ConfigSection)
    (s : ModuleState) (usb_device baud_value : PyVal) (e : exn) :
  domain_get config CONF_DEVICE DEFAULT_DEVICE = Ok usb_device ->
  domain_get config CONF_BAUD DEFAULT_BAUD = Ok baud_value ->
  py_int baud_value = Raise e ->
  setup config s =
    (Raise e, {| globals := with_constants (globals s); host := host s |}).
Proof.
  intros Hd Hb Hi. now rewrite setup_run, Hd, Hb, Hi.
Qed.

(** X14. Leaving out [device] and [baud] is the same as giving the path
    [/dev/ttyUSB0] and any speed that [int] turns into 9600, be it a
    number or a text. *)
Theorem setup_defaults (config : gmap string ConfigSection)
    (section : gmap string PyVal) (v : PyVal) (s : ModuleState) :
  py_int v = Ok 9600 ->
  setup (<[DOMAIN := inr (delete CONF_DEVICE (delete CONF_BAUD section))]>
           config) s
  = setup (<[DOMAIN := inr (<[CONF_DEVICE := VStr "/dev/ttyUSB0"]>
                              (<[CONF_BAUD := v]> section))]> config) s.
Proof.
  intros Hv. rewrite !setup_run. unfold domain_get, config_get.
  rewrite !lookup_insert_eq, lookup_delete_eq.
  rewrite lookup_delete_ne, lookup_delete_eq by discriminate.
  rewrite lookup_insert_ne, lookup_insert_eq by discriminate.
  rewrite Hv. reflexivity.
Qed.

(** X15. After a [setup] that opened the port, [close_serial_port] closes
    that very port, and nothing else happens. *)
Theorem setup_then_close (config : gmap string ConfigSection)
    (s : ModuleState) (usb_device baud_value : PyVal) (baud : Z)
    (ser : Port) :
  domain_get config CONF_DEVICE DEFAULT_DEVICE = Ok usb_device ->
  domain_get config CONF_BAUD DEFAULT_BAUD = Ok baud_value ->
  py_int baud_value = Ok baud ->
  Serial usb_device baud = Opened ser ->
  (setup config ;; close_serial_port) s =
    (Ok tt,
     {| globals := with_device ser;
        host := host s ++
          [EvSerial usb_device baud; EvListenOnceStop; EvSerialClose ser] |}).
Proof.
  intros Hd Hb Hi Hs. unfold bind at 1.
  rewrite setup_run, Hd, Hb, Hi. cbv zeta. rewrite Hs.
  unfold close_serial_port, bind, gets, emit, modify. cbn.
  now rewrite <- !app_assoc.
Qed.

(** X16. After a [setup] that returned [False] on a freshly loaded module,
    [DEVICE] is still [None]: [close_serial_port] raises [AttributeError]
    and closes nothing. *)
Theorem failed_setup_then_close (config : gmap string ConfigSection)
    (usb_device baud_value : PyVal) (baud : Z) (msg : string) :
  domain_get config CONF_DEVICE DEFAULT_DEVICE = Ok usb_device ->
  domain_get config CONF_BAUD DEFAULT_BAUD = Ok baud_value ->
  py_int baud_value = Ok baud ->
  Serial usb_device baud = SerialException msg ->
  (setup config ;; close_serial_port)
    {| globals := Globals.initial; host := [] |} =
    (Raise (AttributeError "zb"),
     {| globals := with_constants Globals.initial;
        host := [EvSerial usb_device baud;
                 EvLoggerException
                   "Unable to open serial port for ZigBee: %s"] |}).
Proof.
  intros Hd Hb Hi Hs. unfold bind at 1.
  rewrite setup_run, Hd, Hb, Hi. cbv zeta. rewrite Hs. reflexivity.
Qed.
(** X19. Only [SerialException] is caught: any other error of [Serial]
    comes out of [setup]; nothing is logged, [DEVICE] keeps its value and
    no listener is registered. *)
Theorem setup_uncaught_error (config : gmap string ConfigSection)
    (s : ModuleState) (usb_device baud_value : PyVal) (baud : Z) (e : exn) :
  domain_get config CONF_DEVICE DEFAULT_DEVICE = Ok usb_device ->
  domain_get config CONF_BAUD DEFAULT_BAUD = Ok baud_value ->
  py_int baud_value = Ok baud ->
  Serial usb_device baud = OtherException e ->
  setup config s =
    (Raise e,
     {| globals := with_constants (globals s);
        host := host s ++ [EvSerial usb_device baud] |}).
Proof.
  intros Hd Hb Hi Hs. rewrite setup_run, Hd, Hb, Hi. cbv zeta. now rewrite Hs.
Qed.
End SetupProperties.

(** *** The further properties on the samples *)

Lemma sample_files :
  (domain_get (X := xbee_const) fast_file CONF_DEVICE DEFAULT_DEVICE
     = Ok (VStr "/dev/ttyUSB0") /\
   domain_get (X := xbee_const) fast_file CONF_BAUD DEFAULT_BAUD
     = Ok (VStr "115200")) /\
  (domain_get (X := xbee_const) absent_device_file CONF_DEVICE DEFAULT_DEVICE
     = Ok (VStr "/dev/ttyS9") /\
   domain_get (X := xbee_const) absent_device_file CONF_BAUD DEFAULT_BAUD
     = Ok (VInt 9600)) /\
  (domain_get (X := xbee_const) bad_baud_file CONF_DEVICE DEFAULT_DEVICE
     = Ok (VStr "/dev/ttyUSB0") /\
   domain_get (X := xbee_const) bad_baud_file CONF_BAUD DEFAULT_BAUD
     = Ok (VStr "fast")).
Proof.
  unfold domain_get, fast_file, absent_device_file, bad_baud_file, config_get.
  rewrite !lookup_singleton_eq.
  repeat split; by simplify_map_eq.
Qed.

Lemma broken_sensor_properties :
  ZigBeePinConfig.pin (X := xbee_const) broken_sensor_config
    = Ok (VStr "A1") /\
  ZigBeeAnalogInConfig.max_voltage (X := xbee_const) broken_sensor_config
    = Raise ValueError.
Proof.
  unfold ZigBeePinConfig.pin, ZigBeeAnalogInConfig.max_voltage,
    config_getitem, config_get.
  cbn [broken_sensor_config ZigBeeConfig._config].
  rewrite lookup_insert_eq.
  rewrite lookup_insert_ne, lookup_singleton_eq by discriminate.
  split; reflexivity.
Qed.

(** X1 on the lamp: a read over a dead link leaves the lamp on. *)
Lemma digital_update_device_failure_lamp :
  ZigBeeDigitalIn.update (DEVICE := sim_device)
    {| self := {| ZigBeeDigitalIn._config := lamp_config true;
                  ZigBeeDigitalIn._state := true |};
       world := sim_world false [x05] VNone |}
  = (Raise (DeviceError "no response"),
     {| self := {| ZigBeeDigitalIn._config := lamp_config true;
                   ZigBeeDigitalIn._state := true |};
        world := {| hardware := sim_hw false [x05] VNone;
                    log := [EvGetGpioPin (VStr "D0") None] |} |}).
Proof.
  exact (digital_update_device_failure (DEVICE := sim_device)
           (lamp_config true) true (sim_world false [x05] VNone)
           (VStr "D0") None (DeviceError "no response")
           (sim_hw false [x05] VNone)
           (proj1 (lamp_config_properties true))
           (proj2 (lamp_config_properties true)) eq_refl).
Defined.

(** X2 on a configuration without a pin: switching on raises [KeyError]
    and the device is left alone. *)
Lemma set_state_bad_config_bare :
  ZigBeeDigitalOut._set_state (DEVICE := sim_device) true
    {| self := {| ZigBeeDigitalIn._config := bare_config;
                  ZigBeeDigitalIn._state := false |};
       world := sim_world true [x04] VNone |}
  = (Raise (KeyError (KStr "pin")),
     {| self := {| ZigBeeDigitalIn._config := bare_config;
                   ZigBeeDigitalIn._state := false |};
        world := sim_world true [x04] VNone |}).
Proof.
  exact (set_state_bad_config (DEVICE := sim_device)
           {| ZigBeeDigitalIn._config := bare_config;
              ZigBeeDigitalIn._state := false |}
           (sim_world true [x04] VNone) true (KeyError (KStr "pin"))
           (or_introl eq_refl)).
Defined.

(** X3 on a sensor whose [max_volts] is the text [high]: [update] raises
    [ValueError] and the device is left alone. *)
Lemma analog_update_bad_config_sensor :
  ZigBeeAnalogIn.update (DEVICE := sim_device)
    {| self := {| ZigBeeAnalogIn._config := broken_sensor_config;
                  ZigBeeAnalogIn._value := VNone |};
       world := sim_world true [] (VInt 50) |}
  = (Raise ValueError,
     {| self := {| ZigBeeAnalogIn._config := broken_sensor_config;
                   ZigBeeAnalogIn._value := VNone |};
        world := sim_world true [] (VInt 50) |}).
Proof.
  apply (analog_update_bad_config (DEVICE := sim_device)
           {| ZigBeeAnalogIn._config := broken_sensor_config;
              ZigBeeAnalogIn._value := VNone |}
           (sim_world true [] (VInt 50)) ValueError).
  right. left. cbn [ZigBeeAnalogIn._config].
  destruct broken_sensor_properties as [Hp Hm]. rewrite Hp, Hm.
  split; reflexivity.
Defined.

(** X18 on a configuration without a pin. *)
Lemma digital_update_bad_config_bare :
  ZigBeeDigitalIn.update (DEVICE := sim_device)
    {| self := {| ZigBeeDigitalIn._config := bare_config;
                  ZigBeeDigitalIn._state := false |};
       world := sim_world true [x04] VNone |}
  = (Raise (KeyError (KStr "pin")),
     {| self := {| ZigBeeDigitalIn._config := bare_config;
                   ZigBeeDigitalIn._state := false |};
        world := sim_world true [x04] VNone |}).
Proof.
  exact (digital_update_bad_config (DEVICE := sim_device)
           {| ZigBeeDigitalIn._config := bare_config;
              ZigBeeDigitalIn._state := false |}
           (sim_world true [x04] VNone) (KeyError (KStr "pin"))
           (or_introl eq_refl)).
Defined.

(** X4 on the lamp: the pin is read low, which is what [True] is written
    as, and the lamp is on. *)
Lemma update_reads_back_lamp :
  ZigBeeDigitalIn.update (DEVICE := sim_device)
    {| self := {| ZigBeeDigitalIn._config := lamp_config true;
                  ZigBeeDigitalIn._state := false |};
       world := sim_world true [x04] VNone |}
  = (Ok tt,
     {| self := {| ZigBeeDigitalIn._config := lamp_config true;
                   ZigBeeDigitalIn._state := true |};
        world := {| hardware := sim_hw true [x04] VNone;
                    log := [EvGetGpioPin (VStr "D0") None] |} |}).
Proof.
  refine (update_reads_back (DEVICE := sim_device) lamp_mapping
            (lamp_config true) false true (sim_world true [x04] VNone)
            (VStr "D0") None GPIO_DIGITAL_OUTPUT_LOW
            (sim_hw true [x04] VNone)
            (or_introl (proj1 lamp_config_init)) _
            (proj1 (lamp_config_properties true))
            (proj2 (lamp_config_properties true)) eq_refl eq_refl).
  discriminate.
Defined.

(** X5 on the lamp, which is not polled: on and off again. *)
Lemma turn_on_then_turn_off_lamp :
  bind (ZigBeeDigitalOut.turn_on (DEVICE := sim_device))
       (fun _ => ZigBeeDigitalOut.turn_off)
    {| self := {| ZigBeeDigitalIn._config := lamp_config false;
                  ZigBeeDigitalIn._state := false |};
       world := sim_world true [x05] VNone |}
  = (Ok tt,
     {| self := {| ZigBeeDigitalIn._config := lamp_config false;
                   ZigBeeDigitalIn._state := false |};
        world :=
          {| hardware := sim_hw true [x05] VNone;
             log := [EvSetGpioPin (VStr "D0") GPIO_DIGITAL_OUTPUT_LOW None;
                     EvStateReported (VStr "on");
                     EvSetGpioPin (VStr "D0") GPIO_DIGITAL_OUTPUT_HIGH None;
                     EvStateReported (VStr "off")] |} |}).
Proof.
  exact (turn_on_then_turn_off (DEVICE := sim_device) (lamp_config false)
           false (sim_world true [x05] VNone) (VStr "D0") None
           GPIO_DIGITAL_OUTPUT_LOW GPIO_DIGITAL_OUTPUT_HIGH
           (sim_hw true [x04] VNone) (sim_hw true [x05] VNone)
           (proj1 (lamp_config_properties false))
           (proj2 (lamp_config_properties false))
           eq_refl eq_refl eq_refl eq_refl).
Defined.

(** X6 on the lamp: switched on, then read back from the device. *)
Lemma set_state_then_update_lamp :
  bind (ZigBeeDigitalOut._set_state (DEVICE := sim_device) true)
       (fun _ => ZigBeeDigitalIn.update)
    {| self := {| ZigBeeDigitalIn._config := lamp_config true;
                  ZigBeeDigitalIn._state := false |};
       world := sim_world true [x05] VNone |}
  = (Ok tt,
     {| self := {| ZigBeeDigitalIn._config := lamp_config true;
                   ZigBeeDigitalIn._state := true |};
        world :=
          {| hardware := sim_hw true [x04] VNone;
             log := [EvSetGpioPin (VStr "D0") GPIO_DIGITAL_OUTPUT_LOW None;
                     EvGetGpioPin (VStr "D0") None] |} |}).
Proof.
  exact (set_state_then_update (DEVICE := sim_device) (lamp_config true)
           false true true (sim_world true [x05] VNone) (VStr "D0") None
           GPIO_DIGITAL_OUTPUT_LOW GPIO_DIGITAL_OUTPUT_LOW
           (sim_hw true [x04] VNone) (sim_hw true [x04] VNone)
           (proj1 (lamp_config_properties true))
           (proj2 (lamp_config_properties true))
           eq_refl eq_refl eq_refl eq_refl).
Defined.

(** X8 on the lamp: the low level stands for on. *)
Lemma state2bool_sound_lamp :
  (GPIO_DIGITAL_OUTPUT_LOW (XBee := xbee_const) = GPIO_DIGITAL_OUTPUT_LOW \/
   GPIO_DIGITAL_OUTPUT_LOW (XBee := xbee_const) = GPIO_DIGITAL_OUTPUT_HIGH) /\
  dict_get (ZigBeeDigitalPinConfig.bool2state (lamp_config true)) true
    = Some GPIO_DIGITAL_OUTPUT_LOW.
Proof.
  exact (state2bool_sound (X := xbee_const) lamp_mapping (lamp_config true)
           GPIO_DIGITAL_OUTPUT_LOW true
           (or_introl (proj1 lamp_config_init)) eq_refl).
Defined.

(** X9 on an address of four bytes, written with capital letters. *)
Lemma address_hex_round_trip_sample :
  exists bs : list byte,
    ZigBeeConfig.address (X := xbee_const)
      (ZigBeeConfig.__init__ (<["address" := VStr "0013A2FF"]> ∅))
      = Ok (Some bs) /\
    hexlify bs = "0013a2ff" /\ (2 * length bs = 8)%nat.
Proof.
  exact (address_hex_round_trip (X := xbee_const) ∅ "0013A2FF" eq_refl).
Defined.

(** X10 on a device that is not there: [setup] returns [False]. *)
Lemma setup_serial_exception_sample :
  setup (SL := sim_serial) absent_device_file fresh_module =
    (Ok false,
     {| globals := with_constants Globals.initial;
        host := [EvSerial (VStr "/dev/ttyS9") 9600;
                 EvLoggerException
                   "Unable to open serial port for ZigBee: %s"] |}).
Proof.
  exact (setup_serial_exception (SL := sim_serial) absent_device_file
           fresh_module (VStr "/dev/ttyS9") (VInt 9600) 9600
           "could not open port"
           (proj1 (proj1 (proj2 sample_files)))
           (proj2 (proj1 (proj2 sample_files))) eq_refl eq_refl).
Defined.

(** X11 on the default device with the speed given as a text. *)
Lemma setup_opens_port_sample :
  setup (SL := sim_serial) fast_file fresh_module =
    (Ok true,
     {| globals := with_device (sim_port "/dev/ttyUSB0" 115200);
        host := [EvSerial (VStr "/dev/ttyUSB0") 115200;
                 EvListenOnceStop] |}).
Proof.
  exact (setup_opens_port (SL := sim_serial) fast_file fresh_module
           (VStr "/dev/ttyUSB0") (VStr "115200") 115200
           (sim_port "/dev/ttyUSB0" 115200)
           (proj1 (proj1 sample_files)) (proj2 (proj1 sample_files))
           eq_refl eq_refl).
Defined.

(** X13 on a speed that is no number: [ValueError] comes out. *)
Lemma setup_bad_baud_sample :
  setup (SL := sim_serial) bad_baud_file fresh_module =
    (Raise ValueError,
     {| globals := with_constants Globals.initial; host := [] |}).
Proof.
  exact (setup_bad_baud (SL := sim_serial) bad_baud_file fresh_module
           (VStr "/dev/ttyUSB0") (VStr "fast") ValueError
           (proj1 (proj2 (proj2 sample_files)))
           (proj2 (proj2 (proj2 sample_files))) eq_refl).
Defined.

(** X14 with the speed given as the text [" 9600 "]. *)
Lemma setup_defaults_sample :
  setup (SL := sim_serial)
    (<[DOMAIN := inr (delete CONF_DEVICE (delete CONF_BAUD ∅))]> ∅)
    fresh_module
  = setup (SL := sim_serial)
      (<[DOMAIN := inr (<[CONF_DEVICE := VStr "/dev/ttyUSB0"]>
                          (<[CONF_BAUD := VStr " 9600 "]> ∅))]> ∅)
      fresh_module.
Proof.
  exact (setup_defaults (SL := sim_serial) ∅ ∅ (VStr " 9600 ") fresh_module
           eq_refl).
Defined.

(** X15 on the default device: the port that was opened is closed. *)
Lemma setup_then_close_sample :
  bind (setup (SL := sim_serial) fast_file) (fun _ => close_serial_port)
    fresh_module =
    (Ok tt,
     {| globals := with_device (sim_port "/dev/ttyUSB0" 115200);
        host := [EvSerial (VStr "/dev/ttyUSB0") 115200;
                 EvListenOnceStop;
                 EvSerialClose (sim_port "/dev/ttyUSB0" 115200)] |}).
Proof.
  exact (setup_then_close (SL := sim_serial) fast_file fresh_module
           (VStr "/dev/ttyUSB0") (VStr "115200") 115200
           (sim_port "/dev/ttyUSB0" 115200)
           (proj1 (proj1 sample_files)) (proj2 (proj1 sample_files))
           eq_refl eq_refl).
Defined.

(** X16 on a device that is not there: there is nothing to close. *)
Lemma failed_setup_then_close_sample :
  bind (setup (SL := sim_serial) absent_device_file)
       (fun _ => close_serial_port) fresh_module =
    (Raise (AttributeError "zb"),
     {| globals := with_constants Globals.initial;
        host := [EvSerial (VStr "/dev/ttyS9") 9600;
                 EvLoggerException
                   "Unable to open serial port for ZigBee: %s"] |}).
Proof.
  exact (failed_setup_then_close (SL := sim_serial) absent_device_file
           (VStr "/dev/ttyS9") (VInt 9600) 9600 "could not open port"
           (proj1 (proj1 (proj2 sample_files)))
           (proj2 (proj1 (proj2 sample_files))) eq_refl eq_refl).
Defined.

(** *** What the methods leave alone *)

Section Footprint.
Context {X : XBee} {DEVICE : ZigBee}.

(** X17. Whatever the outcome, each method keeps the configuration of its
    object and calls the device at most once. [ZigBeeDigitalIn.update]
    either changes nothing at all or has made one read of the pin: it never
    writes and never reports to the platform. [_set_state] either changes
    nothing at all or has made one write, followed by at most one report:
    it never reads. [ZigBeeAnalogIn.update] either changes nothing at all or
    has made one analog read, in percentage mode. *)
Theorem methods_call_device_once :
  (forall s : Env ZigBeeDigitalIn.t,
      let s' := snd (ZigBeeDigitalIn.update s) in
      ZigBeeDigitalIn._config (self s') = ZigBeeDigitalIn._config (self s) /\
      (s' = s \/
       exists p a, log (world s') = (log (world s) ++ [EvGetGpioPin p a])%list)) /\
  (forall (b : bool) (s : Env ZigBeeDigitalIn.t),
      let s' := snd (ZigBeeDigitalOut._set_state b s) in
      ZigBeeDigitalIn._config (self s') = ZigBeeDigitalIn._config (self s) /\
      (s' = s \/
       exists p raw a,
         log (world s') = (log (world s) ++ [EvSetGpioPin p raw a])%list \/
         log (world s') = (log (world s) ++
           [EvSetGpioPin p raw a;
            EvStateReported (if b then STATE_ON else STATE_OFF)])%list)) /\
  (forall s : Env ZigBeeAnalogIn.t,
      let s' := snd (ZigBeeAnalogIn.update s) in
      ZigBeeAnalogIn._config (self s') = ZigBeeAnalogIn._config (self s) /\
      (s' = s \/
       exists p mv a,
         log (world s') = (log (world s)
                            ++ [EvReadAnalogPin p mv a ADC_PERCENTAGE])%list)).
Proof.
  split; [|split].
  - intros [ent w]. cbv zeta.
    destruct (ZigBeeDigitalPinConfig.pin (ZigBeeDigitalIn._config ent))
      as [p|e] eqn:Hp.
    2: { unfold ZigBeeDigitalIn.update, bind, gets, lift. cbn [self].
         rewrite Hp. cbn. auto. }
    destruct (ZigBeeDigitalPinConfig.address (ZigBeeDigitalIn._config ent))
      as [a|e] eqn:Ha.
    2: { unfold ZigBeeDigitalIn.update, bind, gets, lift. cbn [self].
         rewrite Hp, Ha. cbn. auto. }
    rewrite (digital_update_run ent w p a Hp Ha). cbv zeta.
    destruct (get_gpio_pin p a (hardware w)) as [[r|e] hw'];
      [destruct (dict_get _ r) |]; cbn; eauto.
  - intros b [ent w]. cbv zeta.
    destruct (ZigBeeDigitalPinConfig.pin (ZigBeeDigitalIn._config ent))
      as [p|e] eqn:Hp.
    2: { unfold ZigBeeDigitalOut._set_state, bind, gets, lift. cbn [self].
         rewrite Hp. cbn. auto. }
    destruct (getitem KBool
                (ZigBeeDigitalPinConfig.bool2state
                   (ZigBeeDigitalIn._config ent)) b) as [raw|e] eqn:Hr.
    2: { unfold ZigBeeDigitalOut._set_state, bind, gets, lift. cbn [self].
         rewrite Hp, Hr. cbn. auto. }
    destruct (ZigBeeDigitalPinConfig.address (ZigBeeDigitalIn._config ent))
      as [a|e] eqn:Ha.
    2: { unfold ZigBeeDigitalOut._set_state, bind, gets, lift. cbn [self].
         rewrite Hp, Hr, Ha. cbn. auto. }
    rewrite (set_state_run ent w b p raw a Hp Hr Ha). cbv zeta.
    destruct (set_gpio_pin p raw a (hardware w)) as [[[]|e] hw'];
      [destruct (py_truthy _) |]; cbn;
      (split; [reflexivity |]); right; exists p, raw, a; auto.
  - intros [ent w]. cbv zeta.
    destruct (ZigBeePinConfig.pin (ZigBeeAnalogIn._config ent))
      as [p|e] eqn:Hp.
    2: { unfold ZigBeeAnalogIn.update, bind, gets, lift. cbn [self].
         rewrite Hp. cbn. auto. }
    destruct (ZigBeeAnalogInConfig.max_voltage (ZigBeeAnalogIn._config ent))
      as [mv|e] eqn:Hm.
    2: { unfold ZigBeeAnalogIn.update, bind, gets, lift. cbn [self].
         rewrite Hp, Hm. cbn. auto. }
    destruct (ZigBeeConfig.address (ZigBeeAnalogIn._config ent))
      as [a|e] eqn:Ha.
    2: { unfold ZigBeeAnalogIn.update, bind, gets, lift. cbn [self].
         rewrite Hp, Hm, Ha. cbn. auto. }
    rewrite (analog_update_run ent w p mv a Hp Hm Ha). cbv zeta.
    destruct (read_analog_pin p mv a ADC_PERCENTAGE (hardware w))
      as [[v|e] hw']; cbn;
      (split; [reflexivity |]); right; exists p, mv, a; reflexivity.
Qed.
End Footprint.

Lemma numeric_device_file_entries :
  domain_get (X := xbee_const) numeric_device_file CONF_DEVICE DEFAULT_DEVICE
    = Ok (VInt 5) /\
  domain_get (X := xbee_const) numeric_device_file CONF_BAUD DEFAULT_BAUD
    = Ok (VInt 9600).
Proof.
  unfold domain_get, numeric_device_file, config_get.
  rewrite !lookup_singleton_eq.
  split; by simplify_map_eq.
Qed.

(** X19 on a device given as a number: [TypeError] comes out. *)
Lemma setup_uncaught_error_sample :
  setup (SL := sim_serial) numeric_device_file fresh_module =
    (Raise TypeError,
     {| globals := with_constants Globals.initial;
        host := [EvSerial (VInt 5) 9600] |}).
Proof.
  exact (setup_uncaught_error (SL := sim_serial) numeric_device_file
           fresh_module (VInt 5) (VInt 9600) 9600 TypeError
           (proj1 numeric_device_file_entries)
           (proj2 numeric_device_file_entries) eq_refl eq_refl).
Defined.
